(** * The Product REST API of [main.py]: a shallow embedding and its properties

    [main.py] declares one table ([Product], with a NOT NULL constraint on
    [name], [price] and [quantity] and the unique constraint
    [uq_product_name]), two request schemas ([ProductCreate],
    [ProductUpdate]) and five handlers over a database session.

    The embedding follows the file top to bottom:
    - the column attributes of a [Product] object are optional values, as
      the attributes of the ORM object are ([None] until set or flushed);
      the constraints of the table are checked when a session flushes;
    - a request body is the parsed JSON object; the schemas validate it
      field by field, the [mode='before'] validator first;
    - a handler is a function from the committed table to a response and
      the committed table after the request (one session per request, see
      [get_db]; what a rolled-back or closed session held is discarded);
    - path and query parameters are taken after their conversion ([int],
      [float]); prices are IEEE binary64 numbers, as Python's [float].

    What the embedding takes from the environment: table [products]
    exists with the constraints that class [Product] declares; a new row
    gets a key that no row has (one more than the largest, as SQLite
    does); an INTEGER column and an integer bound to a statement hold a
    signed 64-bit integer, and the driver raises [OverflowError] on any
    other; strings are sequences of code points below 256. Encoding of
    responses with [response_model] is not part of [app]; the schema
    [ProductResponse] is checked on the rows that the handlers return in a
    section of its own. *)

From Stdlib Require Import ZArith List String Ascii Bool Lia.
From Stdlib Require Import PrimFloat Uint63.
From Stdlib Require FloatAxioms.
Import ListNotations.

Local Open Scope string_scope.
Local Open Scope list_scope.

(** ** A small error monad on [option] *)

Definition bind {A B : Type} (m : option A) (k : A -> option B) : option B :=
  match m with
  | Some a => k a
  | None => None
  end.

Notation "x <- m ;; k" := (bind m (fun x => k))
  (at level 61, m at next level, right associativity).

(** ** Python strings: [str.strip] *)

(** [str.isspace] on one character, for the code points below 256. *)
Definition isspace (c : ascii) : bool :=
  let n := nat_of_ascii c in
  ((9 <=? n) && (n <=? 13) || (28 <=? n) && (n <=? 32)
   || (n =? 133) || (n =? 160))%nat.

Fixpoint lstrip (s : string) : string :=
  match s with
  | EmptyString => EmptyString
  | String c s' => if isspace c then lstrip s' else s
  end.

Fixpoint rstrip (s : string) : string :=
  match s with
  | EmptyString => EmptyString
  | String c s' =>
      match rstrip s' with
      | EmptyString => if isspace c then EmptyString else String c EmptyString
      | r => String c r
      end
  end.

Definition strip (s : string) : string := rstrip (lstrip s).

(** A string is blank when every character of it is whitespace. *)
Fixpoint blank (s : string) : bool :=
  match s with
  | EmptyString => true
  | String c s' => isspace c && blank s'
  end.

(** ** Parsed JSON *)

#[local] Unset Elimination Schemes.
Inductive json : Type :=
| JNull
| JBool (b : bool)
| JInt (n : Z)
| JFloat (x : float)
| JStr (s : string)
| JArr (l : list json)
| JObj (o : list (string * json)).
#[local] Set Elimination Schemes.

(** The body of a request, a JSON object: the [dict] that [json.loads]
    built, as its items. *)
Definition Body := list (string * json).

Fixpoint dict_get (k : string) (d : Body) : option json :=
  match d with
  | [] => None
  | (k', v) :: d' => if String.eqb k k' then Some v else dict_get k d'
  end.

(** ** The table *)

Module Product.

(** The ORM class [Product]: every column attribute may hold [None]. *)
Record t := mk {
  id : option Z;
  name : option string;
  price : option float;
  quantity : option Z;
  description : option string;
  category : option string
}.

Definition set_id (v : option Z) (p : t) : t :=
  mk v (name p) (price p) (quantity p) (description p) (category p).
Definition set_name (v : option string) (p : t) : t :=
  mk (id p) v (price p) (quantity p) (description p) (category p).
Definition set_price (v : option float) (p : t) : t :=
  mk (id p) (name p) v (quantity p) (description p) (category p).
Definition set_quantity (v : option Z) (p : t) : t :=
  mk (id p) (name p) (price p) v (description p) (category p).
Definition set_description (v : option string) (p : t) : t :=
  mk (id p) (name p) (price p) (quantity p) v (category p).
Definition set_category (v : option string) (p : t) : t :=
  mk (id p) (name p) (price p) (quantity p) (description p) v.

End Product.

(** The committed rows of table [products], in insertion order. *)
Definition Table := list Product.t.

(** ** Validation of request bodies (pydantic) *)

(** The conversion of a parsed JSON value to [float] and to [int] that
    pydantic applies before the constraints of a field ([gt], [ge]) is the
    library's: the schemas below are stated over any such conversion. *)
Class LaxConversion := {
  lax_float : json -> option float;
  lax_int : json -> option Z
}.

Module Pydantic.

(** [str] with [min_length]. *)
Definition str_schema (min_length : nat) (v : json) : option string :=
  match v with
  | JStr s => if (min_length <=? String.length s)%nat then Some s else None
  | _ => None
  end.

(** [float] with [gt]. *)
Definition float_schema `{LaxConversion} (gt : float) (v : json)
  : option float :=
  x <- lax_float v ;;
  if PrimFloat.ltb gt x then Some x else None.

(** [int] with [ge]. *)
Definition int_schema `{LaxConversion} (ge : Z) (v : json) : option Z :=
  n <- lax_int v ;;
  if (ge <=? n)%Z then Some n else None.

(** [Optional[T]]: [null] is accepted as [None]. *)
Definition nullable {A : Type} (inner : json -> option A) (v : json)
  : option (option A) :=
  match v with
  | JNull => Some None
  | _ => option_map Some (inner v)
  end.

(** A [mode='before'] validator runs on the raw value, then the schema. *)
Definition before {A : Type} (validator : json -> option json)
    (schema : json -> option A) (v : json) : option A :=
  v' <- validator v ;; schema v'.

(** A field declared with [...]: it must be present. *)
Definition required {A : Type} (schema : json -> option A)
    (raw : option json) : option A :=
  match raw with
  | Some v => schema v
  | None => None
  end.

(** A field with a default: the default is taken as it is (validators do
    not run on it). *)
Definition defaulted {A : Type} (default : A) (schema : json -> option A)
    (raw : option json) : option A :=
  match raw with
  | Some v => schema v
  | None => Some default
  end.

(** The same, remembering whether the field was set: [None] when the
    field is absent from the body (it is then not in [model_fields_set]),
    [Some x] when it was given and validated to [x]. *)
Definition tracked {A : Type} (schema : json -> option A)
    (raw : option json) : option (option A) :=
  match raw with
  | Some v => option_map Some (schema v)
  | None => Some None
  end.

End Pydantic.

Module ProductCreate.

Record t := mk {
  name : string;
  price : float;
  quantity : Z;
  description : option string;
  category : option string
}.

Definition empty_string_not_allowed (v : json) : option json :=
  match v with
  | JStr s => if String.eqb (strip s) "" then None else Some v
  | _ => Some v
  end.

Section Validate.
Context `{LaxConversion}.
Import Pydantic.

Definition validate (body : Body) : option t :=
  n <- required (before empty_string_not_allowed (str_schema 1))
         (dict_get "name" body) ;;
  p <- required (float_schema 0%float) (dict_get "price" body) ;;
  q <- required (int_schema 0%Z) (dict_get "quantity" body) ;;
  d <- defaulted None
         (before empty_string_not_allowed (nullable (str_schema 0)))
         (dict_get "description" body) ;;
  c <- defaulted None
         (before empty_string_not_allowed (nullable (str_schema 0)))
         (dict_get "category" body) ;;
  Some (mk n p q d c).

End Validate.

End ProductCreate.

Module ProductUpdate.

(** Each field is [None] when unset, [Some v] when the body gave it
    ([v] is [None] for an explicit [null]). *)
Record t := mk {
  name : option (option string);
  price : option (option float);
  quantity : option (option Z);
  description : option (option string);
  category : option (option string)
}.

Definition empty_string_not_allowed_update (v : json) : option json :=
  match v with
  | JStr s => if String.eqb (strip s) "" then None else Some v
  | _ => Some v
  end.

Section Validate.
Context `{LaxConversion}.
Import Pydantic.

Definition validate (body : Body) : option t :=
  n <- tracked
         (before empty_string_not_allowed_update
            (nullable (str_schema 1)))
         (dict_get "name" body) ;;
  p <- tracked (nullable (float_schema 0%float))
         (dict_get "price" body) ;;
  q <- tracked (nullable (int_schema 0%Z)) (dict_get "quantity" body) ;;
  d <- tracked
         (before empty_string_not_allowed_update
            (nullable (str_schema 0)))
         (dict_get "description" body) ;;
  c <- tracked
         (before empty_string_not_allowed_update
            (nullable (str_schema 0)))
         (dict_get "category" body) ;;
  Some (mk n p q d c).

End Validate.

End ProductUpdate.

(** ** The session over the table *)

(** What a statement can raise: [IntegrityError] on a constraint,
    [OverflowError] on an integer that does not fit 64 bits,
    [OperationalError] when the table has no key left for a new row. *)
Inductive Exception : Type :=
| IntegrityError
| OverflowError
| OperationalError.

Module Session.

(** The integers of an INTEGER column and of a bound parameter. *)
Definition in_int64 (z : Z) : bool :=
  (- 2 ^ 63 <=? z)%Z && (z <? 2 ^ 63)%Z.

(** [p] is the row of key [pid]: a key is a 64-bit integer. *)
Definition has_id (pid : Z) (p : Product.t) : bool :=
  match Product.id p with
  | Some i => in_int64 i && (i =? pid)%Z
  | None => false
  end.

Definition same_id (p q : Product.t) : bool :=
  match Product.id q with
  | Some i => has_id i p
  | None => false
  end.

Definition same_name (p q : Product.t) : bool :=
  match Product.name p, Product.name q with
  | Some a, Some b => String.eqb a b
  | _, _ => false
  end.

(** The first row of key [product_id], which the SELECT returns. *)
Definition first_by_id (product_id : Z) (db : Table) : option Product.t :=
  find (has_id product_id) db.

(** [db.query(Product).filter(Product.id == product_id).first()]: the
    parameter is bound, which raises [OverflowError] when [product_id] is
    not a 64-bit integer, and the SELECT runs. *)
Definition first (product_id : Z) (db : Table)
  : Exception + option Product.t :=
  if in_int64 product_id then inr (first_by_id product_id db)
  else inl OverflowError.

(** The integer attributes of [obj] that a statement binds fit 64 bits. *)
Definition bindable (obj : Product.t) : bool :=
  match Product.quantity obj with
  | Some q => in_int64 q
  | None => true
  end.

(** [nullable=False] on [name], [price] and [quantity]. *)
Definition not_null (p : Product.t) : bool :=
  match Product.name p, Product.price p, Product.quantity p with
  | Some _, Some _, Some _ => true
  | _, _, _ => false
  end.

(** The key of a new row: one more than the largest key in the table. *)
Definition max_id (db : Table) : Z :=
  fold_right
    (fun p m => match Product.id p with Some i => Z.max i m | None => m end)
    0%Z db.

Definition next_id (db : Table) : Z := (max_id db + 1)%Z.

(** [db.add(obj); db.commit()]: the INSERT. Binding the values raises
    [OverflowError] on a quantity that does not fit 64 bits, before the
    statement runs. The statement fails on a NULL in a NOT NULL column and
    on a name that a row already has; otherwise the row gets its key and
    is appended. When the largest key is the largest integer, SQLite looks
    for an unused key at random and gives up with an error when it finds
    none: the embedding takes the error. *)
Definition commit_add (obj : Product.t) (db : Table)
  : Exception + Product.t * Table :=
  if negb (bindable obj) then inl OverflowError
  else if not_null obj && negb (existsb (same_name obj) db)
  then if in_int64 (next_id db)
       then let row := Product.set_id (Some (next_id db)) obj in
            inr (row, db ++ [row])
       else inl OperationalError
  else inl IntegrityError.

(** [db.commit()] with [obj], a loaded object whose attributes were
    assigned: the UPDATE of the row with the key of [obj]. Binding the
    values raises [OverflowError] on a quantity that does not fit 64 bits,
    before the statement runs. The statement fails on a NULL in a NOT NULL
    column and on a name that another row has. *)
Definition commit_dirty (obj : Product.t) (db : Table)
  : Exception + Table :=
  if negb (bindable obj) then inl OverflowError
  else if not_null obj
     && negb (existsb (fun r => negb (same_id obj r) && same_name obj r) db)
  then inr (map (fun r => if same_id obj r then obj else r) db)
  else inl IntegrityError.

(** [db.delete(obj); db.commit()]: the DELETE of the row with the key of
    [obj]. *)
Definition commit_delete (obj : Product.t) (db : Table) : Table :=
  filter (fun r => negb (same_id obj r)) db.

(** [query.filter(Product.price >= price_gte)]: a NULL compares as
    unknown and the row is left out. *)
Definition price_ge (price_gte : float) (p : Product.t) : bool :=
  match Product.price p with
  | Some x => PrimFloat.leb price_gte x
  | None => false
  end.

End Session.

(** ** The handlers *)

Inductive Response : Type :=
| Ok_product (p : Product.t)
| Ok_products (l : list Product.t)
| Ok_message (message : string)
| HTTPException (status_code : Z) (detail : string)
| RequestValidationError
| InternalServerError.

(** The [Product] built from [product.dict()]: every field of the schema
    becomes an attribute; the key is not set yet. *)
Definition Product_of (product : ProductCreate.t) : Product.t :=
  Product.mk None
    (Some (ProductCreate.name product))
    (Some (ProductCreate.price product))
    (Some (ProductCreate.quantity product))
    (ProductCreate.description product)
    (ProductCreate.category product).

(** An item of [product.dict(exclude_unset=True)]. *)
Inductive Item : Type :=
| name_ (v : option string)
| price_ (v : option float)
| quantity_ (v : option Z)
| description_ (v : option string)
| category_ (v : option string).

Definition item {A : Type} (key : A -> Item) (field : option A) : list Item :=
  match field with
  | Some v => [key v]
  | None => []
  end.

Definition dict_exclude_unset (product : ProductUpdate.t) : list Item :=
  item name_ (ProductUpdate.name product)
  ++ item price_ (ProductUpdate.price product)
  ++ item quantity_ (ProductUpdate.quantity product)
  ++ item description_ (ProductUpdate.description product)
  ++ item category_ (ProductUpdate.category product).

Definition setattr (db_product : Product.t) (kv : Item) : Product.t :=
  match kv with
  | name_ v => Product.set_name v db_product
  | price_ v => Product.set_price v db_product
  | quantity_ v => Product.set_quantity v db_product
  | description_ v => Product.set_description v db_product
  | category_ v => Product.set_category v db_product
  end.

Definition create_product (product : ProductCreate.t) (db : Table)
  : Response * Table :=
  let db_product := Product_of product in
  match Session.commit_add db_product db with
  | inr (db_product, db') => (Ok_product db_product, db')
  | inl IntegrityError =>
      (HTTPException 400 "Product creation failed due to duplicate name.", db)
  | inl _ =>
      (HTTPException 500 "An error occurred while creating the product.", db)
  end.

(** An exception that no handler catches leaves the request: the server
    answers 500 and the session is closed with nothing committed. *)
Definition get_product (product_id : Z) (db : Table) : Response * Table :=
  match Session.first product_id db with
  | inl _ => (InternalServerError, db)
  | inr None => (HTTPException 404 "Product not found", db)
  | inr (Some product) => (Ok_product product, db)
  end.

Definition update_product (product_id : Z) (product : ProductUpdate.t)
    (db : Table) : Response * Table :=
  match Session.first product_id db with
  | inl _ => (InternalServerError, db)
  | inr None => (HTTPException 404 "Product not found", db)
  | inr (Some db_product) =>
      let update_data := dict_exclude_unset product in
      let db_product := fold_left setattr update_data db_product in
      match Session.commit_dirty db_product db with
      | inr db' => (Ok_product db_product, db')
      | inl IntegrityError =>
          (HTTPException 400 "Update failed due to duplicate name.", db)
      | inl _ => (InternalServerError, db)
      end
  end.

Definition delete_product (product_id : Z) (db : Table) : Response * Table :=
  match Session.first product_id db with
  | inl _ => (InternalServerError, db)
  | inr None => (HTTPException 404 "Product not found", db)
  | inr (Some db_product) =>
      (Ok_message "Product deleted successfully",
       Session.commit_delete db_product db)
  end.

Definition list_products (price_gte : option float) (db : Table)
  : Response * Table :=
  let query :=
    match price_gte with
    | Some t => filter (Session.price_ge t) db
    | None => db
    end in
  let products := query in
  (Ok_products (match products with [] => [] | _ :: _ => products end), db).

(** ** The routes *)

(** A request, with its path and query parameters converted and its body
    parsed. *)
Inductive Request : Type :=
| GET_root
| POST_products (body : Body)
| GET_product (product_id : Z)
| PUT_product (product_id : Z) (body : Body)
| DELETE_product (product_id : Z)
| GET_products (price_gte : option float).

Section App.
Context `{LaxConversion}.

(** The application: the parameters of a handler are validated against
    their declarations ([ProductCreate], [ProductUpdate],
    [Query(None, ge=0)]) before the handler is called; a parameter that
    fails makes the response and the handler does not run. *)
Definition app (r : Request) (db : Table) : Response * Table :=
  match r with
  | GET_root => (Ok_message "Welcome to the Product REST API", db)
  | POST_products body =>
      match ProductCreate.validate body with
      | Some product => create_product product db
      | None => (RequestValidationError, db)
      end
  | GET_product product_id => get_product product_id db
  | PUT_product product_id body =>
      match ProductUpdate.validate body with
      | Some product => update_product product_id product db
      | None => (RequestValidationError, db)
      end
  | DELETE_product product_id => delete_product product_id db
  | GET_products None => list_products None db
  | GET_products (Some t) =>
      if PrimFloat.leb 0 t then list_products (Some t) db
      else (RequestValidationError, db)
  end.

(** The table after a sequence of requests. *)
Fixpoint run (rs : list Request) (db : Table) : Table :=
  match rs with
  | [] => db
  | r :: rs' => run rs' (snd (app r db))
  end.

End App.


(** ** What the table guarantees *)

(** No two rows of [db] are related by [same]. *)
Fixpoint distinct (same : Product.t -> Product.t -> bool) (db : Table)
  : bool :=
  match db with
  | [] => true
  | p :: db' => forallb (fun q => negb (same p q)) db' && distinct same db'
  end.

(** The row has a key, a 64-bit integer. *)
Definition keyed (p : Product.t) : bool :=
  match Product.id p with
  | Some i => Session.in_int64 i
  | None => false
  end.

(** The constraints of table [products]: every row has its key, its
    NOT NULL columns and a quantity of 64 bits, keys are unique
    ([primary_key=True]) and names are unique ([uq_product_name]). *)
Definition consistent (db : Table) : bool :=
  forallb
    (fun p => keyed p && Session.not_null p && Session.bindable p) db
  && distinct Session.same_id db
  && distinct Session.same_name db.

(** What a row of a consistent table satisfies. *)
Definition stored (p : Product.t) : bool :=
  keyed p && Session.not_null p && Session.bindable p.

(** [price > 0] and [quantity >= 0]. *)
Definition in_range (p : Product.t) : bool :=
  match Product.price p, Product.quantity p with
  | Some x, Some n => PrimFloat.ltb 0 x && (0 <=? n)%Z
  | _, _ => false
  end.

(** A table as the requests leave it: consistent, every row in range. *)
Definition sound (db : Table) : bool :=
  consistent db && forallb in_range db.

(** The value of an attribute after the loop over [update_data]: the value
    of the item when the field was set, the old value otherwise. *)
Definition patch {A : Type} (field : option A) (old : A) : A :=
  match field with
  | Some v => v
  | None => old
  end.

Definition patched (product : ProductUpdate.t) (p : Product.t) : Product.t :=
  Product.mk (Product.id p)
    (patch (ProductUpdate.name product) (Product.name p))
    (patch (ProductUpdate.price product) (Product.price p))
    (patch (ProductUpdate.quantity product) (Product.quantity p))
    (patch (ProductUpdate.description product) (Product.description p))
    (patch (ProductUpdate.category product) (Product.category p)).

(** The payload gives [null] for a NOT NULL column. *)
Definition null_in_required (product : ProductUpdate.t) : bool :=
  match ProductUpdate.name product, ProductUpdate.price product,
        ProductUpdate.quantity product with
  | Some None, _, _ | _, Some None, _ | _, _, Some None => true
  | _, _, _ => false
  end.

Definition named (n : string) (r : Product.t) : bool :=
  match Product.name r with
  | Some m => String.eqb n m
  | None => false
  end.

(** The payload gives a name that a row with another key has. *)
Definition name_collides (product_id : Z) (product : ProductUpdate.t)
    (db : Table) : bool :=
  match ProductUpdate.name product with
  | Some (Some n) =>
      existsb (fun r => negb (Session.has_id product_id r) && named n r) db
  | _ => false
  end.

(** The payload gives a quantity that does not fit 64 bits. *)
Definition overflows (product : ProductUpdate.t) : bool :=
  match ProductUpdate.quantity product with
  | Some (Some q) => negb (Session.in_int64 q)
  | _ => false
  end.

(** The table has a key left for a new row. *)
Definition has_room (db : Table) : bool :=
  Session.in_int64 (Session.next_id db).

(** The row with the key of [p] replaced by [p], the other rows kept. *)
Definition replaced (p : Product.t) (db : Table) : Table :=
  map (fun r => if Session.same_id p r then p else r) db.

(** ** Concrete requests, for the examples *)

Module Demo.

(** The float of an integer of at most 53 bits, which is exact. *)
Definition float_of_Z (n : Z) : option float :=
  if (Z.abs n <=? 2 ^ 53)%Z
  then Some (if (n <? 0)%Z
             then PrimFloat.opp (PrimFloat.of_uint63 (Uint63.of_Z (- n)))
             else PrimFloat.of_uint63 (Uint63.of_Z n))
  else None.

(** A conversion that takes JSON numbers only: a [float] from a float or
    a 53-bit integer, an [int] from an integer. *)
Definition json_numbers : LaxConversion := {|
  lax_float v :=
    match v with
    | JFloat x => Some x
    | JInt n => float_of_Z n
    | _ => None
    end;
  lax_int v :=
    match v with
    | JInt n => Some n
    | _ => None
    end
|}.

Definition serve : Request -> Table -> Response * Table :=
  @app json_numbers.

(** The least integer above the 64-bit range. *)
Definition too_big : Z := (2 ^ 63)%Z.

Definition widget : Body :=
  [("name", JStr "Widget"); ("price", JFloat 10); ("quantity", JInt 5)].

Definition gadget : Body :=
  [("name", JStr "Gadget"); ("price", JInt 20); ("quantity", JInt 2);
   ("description", JStr "A gadget")].

(** The table after both were created: keys 1 and 2. *)
Definition shop : Table :=
  @run json_numbers [POST_products widget; POST_products gadget] [].

Definition widget_row : Product.t :=
  Product.mk (Some 1%Z) (Some "Widget") (Some 10%float) (Some 5%Z)
    None None.

Definition gadget_row : Product.t :=
  Product.mk (Some 2%Z) (Some "Gadget") (Some 20%float) (Some 2%Z)
    (Some "A gadget") None.

End Demo.

(** ** The response schema *)

Module ProductResponse.

(** [class ProductResponse(ProductCreate)]: the fields and the validator of
    [ProductCreate], and [id: int]. *)
Record t := mk {
  id : Z;
  name : string;
  price : float;
  quantity : Z;
  description : option string;
  category : option string
}.

(** An attribute of the returned object, as validation reads it. *)
Definition attribute {A : Type} (value : A -> json) (a : option A) : json :=
  match a with
  | Some x => value x
  | None => JNull
  end.

Definition attributes (obj : Product.t) : Body :=
  [("id", attribute JInt (Product.id obj));
   ("name", attribute JStr (Product.name obj));
   ("price", attribute JFloat (Product.price obj));
   ("quantity", attribute JInt (Product.quantity obj));
   ("description", attribute JStr (Product.description obj));
   ("category", attribute JStr (Product.category obj))].

Section Validate.
Context `{LaxConversion}.

Definition validate (obj : Product.t) : option t :=
  base <- ProductCreate.validate (attributes obj) ;;
  i <- Pydantic.required lax_int (dict_get "id" (attributes obj)) ;;
  Some (mk i (ProductCreate.name base) (ProductCreate.price base)
          (ProductCreate.quantity base) (ProductCreate.description base)
          (ProductCreate.category base)).

End Validate.

End ProductResponse.

(** ** The helper of the tests *)

Section Tests.
Context `{LaxConversion}.

(** [cleanup_products] of [test.py]: list every product, then delete each
    by the [id] of its record. A record without [id] names no route of a
    product, and nothing is deleted for it. *)
Definition cleanup_products (db : Table) : Table :=
  match fst (app (GET_products None) db) with
  | Ok_products products =>
      fold_left
        (fun db product =>
           match Product.id product with
           | Some product_id => snd (app (DELETE_product product_id) db)
           | None => db
           end)
        products db
  | _ => db
  end.

End Tests.

(** ** What validation accepts, field by field *)

(** A text that is given and has a character that is not whitespace. *)
Definition text_ok (o : option string) : bool :=
  match o with
  | Some s => negb (blank s)
  | None => true
  end.

Definition texts_ok (p : Product.t) : bool :=
  text_ok (Product.name p) && text_ok (Product.description p)
  && text_ok (Product.category p).

(** An optional text of [ProductCreate]: absent or [null] gives [None], a
    string that is not blank gives itself, nothing else is accepted. *)
Definition optional_text (raw : option json) (d : option string) : Prop :=
  match raw with
  | None | Some JNull => d = None
  | Some (JStr s) => blank s = false /\ d = Some s
  | Some _ => False
  end.

(** A text of [ProductUpdate]: absent is unset, [null] is set to [None], a
    string that is not blank is set to itself. *)
Definition tracked_text (raw : option json) (f : option (option string))
  : Prop :=
  match raw with
  | None => f = None
  | Some JNull => f = Some None
  | Some (JStr s) => blank s = false /\ f = Some (Some s)
  | Some _ => False
  end.

(** A number schema: a conversion, then a bound ([float_schema] and
    [int_schema] are of this form). *)
Definition bounded {A : Type} (convert : json -> option A) (ok : A -> bool)
    (v : json) : option A :=
  x <- convert v ;; if ok x then Some x else None.

(** A number of [ProductUpdate], converted by [convert] and within [ok]. *)
Definition tracked_number {A : Type} (convert : json -> option A)
    (ok : A -> bool) (raw : option json) (f : option (option A)) : Prop :=
  match raw with
  | None => f = None
  | Some JNull => f = Some None
  | Some v => exists x, convert v = Some x /\ ok x = true /\ f = Some (Some x)
  end.

(** ** Rows that a response can carry *)

(** A row with its key, its NOT NULL columns, its numbers in range and its
    texts not blank. *)
Definition good_row (p : Product.t) : bool :=
  keyed p && Session.not_null p && in_range p && texts_ok p.

(** [resp] holds the values of the attributes of [p]. *)
Definition carries (p : Product.t) (resp : ProductResponse.t) : Prop :=
  Product.id p = Some (ProductResponse.id resp)
  /\ Product.name p = Some (ProductResponse.name resp)
  /\ Product.price p = Some (ProductResponse.price resp)
  /\ Product.quantity p = Some (ProductResponse.quantity resp)
  /\ Product.description p = ProductResponse.description resp
  /\ Product.category p = ProductResponse.category resp.
(** * Properties *)

Lemma bind_Some {A B : Type} (m : option A) (k : A -> option B) (b : B) :
  bind m k = Some b -> exists a, m = Some a /\ k a = Some b.
Proof.
  destruct m as [a|]; simpl; intros E; [exists a; split; auto | discriminate].
Qed.

(** ** Stripping *)

Lemma rstrip_empty (s : string) : rstrip s = "" <-> blank s = true.
Proof.
  induction s as [|c s IH]; simpl.
  - split; reflexivity.
  - destruct (rstrip s) eqn:R; destruct (isspace c); simpl; split;
      intros E; try discriminate; try reflexivity;
      solve [apply IH; reflexivity | apply IH in E; discriminate].
Qed.

Lemma blank_lstrip (s : string) : blank (lstrip s) = blank s.
Proof.
  induction s as [|c s IH]; simpl; [reflexivity|].
  destruct (isspace c) eqn:C; simpl; [exact IH | rewrite C; reflexivity].
Qed.

(** [v.strip() == ""] holds exactly of the strings made of whitespace. *)
Lemma strip_empty (s : string) : strip s = "" <-> blank s = true.
Proof.
  unfold strip. rewrite rstrip_empty, blank_lstrip. reflexivity.
Qed.

(** ** The schemas *)

Lemma validator_rejects_blank (s : string) :
  strip s = "" ->
  ProductCreate.empty_string_not_allowed (JStr s) = None
  /\ ProductUpdate.empty_string_not_allowed_update (JStr s) = None.
Proof.
  intros E. simpl. rewrite E. split; reflexivity.
Qed.

Section Schemas.
Context `{LaxConversion}.
Import Pydantic.

Lemma float_schema_gt (gt : float) (v : json) (x : float) :
  float_schema gt v = Some x ->
  lax_float v = Some x /\ PrimFloat.ltb gt x = true.
Proof.
  unfold float_schema. intros E.
  apply bind_Some in E. destruct E as [y [L E]].
  destruct (PrimFloat.ltb gt y) eqn:G; [|discriminate].
  injection E as <-. split; assumption.
Qed.

Lemma int_schema_ge (ge : Z) (v : json) (n : Z) :
  int_schema ge v = Some n -> lax_int v = Some n /\ (ge <= n)%Z.
Proof.
  unfold int_schema. intros E.
  apply bind_Some in E. destruct E as [m [L E]].
  destruct (Z.leb_spec ge m); [|discriminate].
  injection E as <-. split; assumption.
Qed.

Lemma nullable_Some {A : Type} (inner : json -> option A) (v : json)
    (a : A) :
  nullable inner v = Some (Some a) -> inner v = Some a.
Proof.
  destruct v; simpl; try discriminate;
    (destruct (inner _); simpl;
     [intros E; injection E as <-; reflexivity | discriminate]).
Qed.

Lemma tracked_Some {A : Type} (schema : json -> option A)
    (raw : option json) (a : A) :
  tracked schema raw = Some (Some a) ->
  exists v, raw = Some v /\ schema v = Some a.
Proof.
  destruct raw as [v|]; simpl; [|discriminate].
  destruct (schema v) eqn:S; simpl; [|discriminate].
  intros E. injection E as <-. exists v. split; [reflexivity | exact S].
Qed.

(** What a validated [ProductCreate] holds. *)
Lemma create_validated (body : Body) (product : ProductCreate.t) :
  ProductCreate.validate body = Some product ->
  (exists v, dict_get "price" body = Some v
             /\ lax_float v = Some (ProductCreate.price product))
  /\ PrimFloat.ltb 0 (ProductCreate.price product) = true
  /\ (exists v, dict_get "quantity" body = Some v
                /\ lax_int v = Some (ProductCreate.quantity product))
  /\ (0 <= ProductCreate.quantity product)%Z.
Proof.
  unfold ProductCreate.validate. intros E.
  apply bind_Some in E. destruct E as [n [_ E]].
  apply bind_Some in E. destruct E as [p [Hp E]].
  apply bind_Some in E. destruct E as [q [Hq E]].
  apply bind_Some in E. destruct E as [d [_ E]].
  apply bind_Some in E. destruct E as [c [_ E]].
  injection E as <-. simpl.
  destruct (dict_get "price" body) as [vp|]; [|discriminate].
  destruct (dict_get "quantity" body) as [vq|]; [|discriminate].
  simpl in Hp, Hq.
  apply float_schema_gt in Hp. apply int_schema_ge in Hq.
  destruct Hp as [Lp Gp]. destruct Hq as [Lq Gq].
  repeat split; try assumption; eexists; split; eauto.
Qed.

(** What a validated [ProductUpdate] holds in its numeric fields. *)
Lemma update_validated (body : Body) (product : ProductUpdate.t) :
  ProductUpdate.validate body = Some product ->
  (forall x, ProductUpdate.price product = Some (Some x) ->
     (exists v, dict_get "price" body = Some v /\ lax_float v = Some x)
     /\ PrimFloat.ltb 0 x = true)
  /\ (forall n, ProductUpdate.quantity product = Some (Some n) ->
     (exists v, dict_get "quantity" body = Some v /\ lax_int v = Some n)
     /\ (0 <= n)%Z).
Proof.
  unfold ProductUpdate.validate. intros E.
  apply bind_Some in E. destruct E as [n [_ E]].
  apply bind_Some in E. destruct E as [p [Hp E]].
  apply bind_Some in E. destruct E as [q [Hq E]].
  apply bind_Some in E. destruct E as [d [_ E]].
  apply bind_Some in E. destruct E as [c [_ E]].
  injection E as <-. simpl. split.
  - intros x ->. apply tracked_Some in Hp. destruct Hp as [v [G S]].
    apply nullable_Some in S. apply float_schema_gt in S.
    destruct S. split; [exists v; split|]; assumption.
  - intros m ->. apply tracked_Some in Hq. destruct Hq as [v [G S]].
    apply nullable_Some in S. apply int_schema_ge in S.
    destruct S. split; [exists v; split|]; assumption.
Qed.

End Schemas.

(** ** The session *)

Lemma in_int64_eqb_sym (a b : Z) :
  Session.in_int64 a && (a =? b)%Z = Session.in_int64 b && (b =? a)%Z.
Proof.
  destruct (Z.eqb_spec a b) as [->|N].
  - rewrite Z.eqb_refl. reflexivity.
  - rewrite (proj2 (Z.eqb_neq b a)) by congruence.
    rewrite !andb_false_r. reflexivity.
Qed.

Lemma same_id_sym (p q : Product.t) :
  Session.same_id p q = Session.same_id q p.
Proof.
  unfold Session.same_id, Session.has_id.
  destruct (Product.id p), (Product.id q); try reflexivity.
  apply in_int64_eqb_sym.
Qed.

Lemma has_id_spec (i : Z) (p : Product.t) :
  Session.has_id i p = true <->
  Product.id p = Some i /\ Session.in_int64 i = true.
Proof.
  unfold Session.has_id. destruct (Product.id p) as [a|]; split.
  - intros E. apply andb_prop in E. destruct E as [R E].
    apply Z.eqb_eq in E. subst a. auto.
  - intros [E R]. injection E as ->. rewrite R, Z.eqb_refl. reflexivity.
  - discriminate.
  - intros [E _]. discriminate.
Qed.

Lemma same_name_sym (p q : Product.t) :
  Session.same_name p q = Session.same_name q p.
Proof.
  unfold Session.same_name.
  destruct (Product.name p), (Product.name q); try reflexivity.
  apply String.eqb_sym.
Qed.

Lemma has_id_same_id (i : Z) (p q : Product.t) :
  Session.has_id i p = true ->
  Session.same_id p q = Session.has_id i q.
Proof.
  intros E. apply has_id_spec in E. destruct E as [E R].
  unfold Session.same_id, Session.has_id. rewrite E.
  destruct (Product.id q); [apply in_int64_eqb_sym | reflexivity].
Qed.

Lemma same_id_ids (p q : Product.t) :
  Session.same_id p q = true -> Product.id p = Product.id q.
Proof.
  unfold Session.same_id.
  destruct (Product.id q) as [b|]; [|discriminate].
  intros E. apply has_id_spec in E. apply E.
Qed.

(** [same_id] and [same_name] look at the key and at the name only. *)
Lemma same_id_ext (p p' q q' : Product.t) :
  Product.id p = Product.id p' -> Product.id q = Product.id q' ->
  Session.same_id p q = Session.same_id p' q'.
Proof.
  unfold Session.same_id, Session.has_id. intros -> ->. reflexivity.
Qed.

Lemma same_name_ext (p p' q q' : Product.t) :
  Product.name p = Product.name p' -> Product.name q = Product.name q' ->
  Session.same_name p q = Session.same_name p' q'.
Proof.
  unfold Session.same_name. intros -> ->. reflexivity.
Qed.

Lemma first_by_id_Some (i : Z) (db : Table) (p : Product.t) :
  Session.first_by_id i db = Some p -> In p db /\ Session.has_id i p = true.
Proof. apply find_some. Qed.

Lemma first_found (i : Z) (db : Table) (p : Product.t) :
  Session.first_by_id i db = Some p -> Session.first i db = inr (Some p).
Proof.
  intros F. unfold Session.first. rewrite F.
  apply find_some in F. destruct F as [_ I].
  apply has_id_spec in I. destruct I as [_ ->]. reflexivity.
Qed.

Lemma first_by_id_None (i : Z) (db : Table) :
  Session.first_by_id i db = None ->
  forall p, In p db -> Session.has_id i p = false.
Proof. apply find_none. Qed.

Lemma forallb_map_in {A B : Type} (f : A -> B) (g : B -> bool)
    (h : A -> bool) (l : list A) :
  (forall x, In x l -> g (f x) = h x) ->
  forallb g (map f l) = forallb h l.
Proof.
  induction l as [|a l IH]; simpl; [reflexivity|].
  intros E. rewrite E by (left; reflexivity).
  rewrite IH by (intros; apply E; right; assumption). reflexivity.
Qed.

Section Distinct.
Variable same : Product.t -> Product.t -> bool.
Hypothesis same_sym : forall p q, same p q = same q p.

Lemma distinct_In (db : Table) (p q : Product.t) :
  distinct same db = true -> In p db -> In q db ->
  same p q = true -> p = q.
Proof.
  induction db as [|r db IH]; simpl; [contradiction|].
  intros D Hp Hq S. apply andb_prop in D. destruct D as [F D].
  rewrite forallb_forall in F.
  destruct Hp as [<-|Hp], Hq as [<-|Hq]; auto.
  - apply F in Hq. rewrite S in Hq. discriminate.
  - apply F in Hp. rewrite same_sym, S in Hp. discriminate.
Qed.

Lemma distinct_snoc (db : Table) (r : Product.t) :
  distinct same (db ++ [r])
  = distinct same db && forallb (fun p => negb (same p r)) db.
Proof.
  induction db as [|p db IH]; simpl; [reflexivity|].
  rewrite IH, forallb_app. simpl.
  destruct (forallb (fun q => negb (same p q)) db),
    (same p r), (distinct same db); simpl; try reflexivity.
Qed.

Lemma distinct_filter (keep : Product.t -> bool) (db : Table) :
  distinct same db = true -> distinct same (filter keep db) = true.
Proof.
  induction db as [|p db IH]; simpl; [reflexivity|].
  intros D. apply andb_prop in D. destruct D as [F D].
  destruct (keep p); simpl; [|auto].
  rewrite IH by assumption. rewrite andb_true_r.
  rewrite forallb_forall in *. intros q Hq.
  apply filter_In in Hq. apply F, Hq.
Qed.

(** A map that changes no verdict of [same] keeps the rows distinct. *)
Lemma distinct_map (f : Product.t -> Product.t) (db : Table) :
  (forall p q, In p db -> In q db -> same (f p) (f q) = same p q) ->
  distinct same (map f db) = distinct same db.
Proof.
  induction db as [|p db IH]; simpl; [reflexivity|].
  intros E. rewrite IH by (intros; apply E; right; assumption).
  f_equal. apply forallb_map_in.
  intros q Hq. rewrite E; [reflexivity | left; reflexivity | right; exact Hq].
Qed.

End Distinct.

(** ** The loop over [update_data] *)

Lemma setattr_loop (product : ProductUpdate.t) (p : Product.t) :
  fold_left setattr (dict_exclude_unset product) p = patched product p.
Proof.
  destruct product as [[n|] [x|] [q|] [d|] [c|]]; destruct p; reflexivity.
Qed.

Lemma patched_id (product : ProductUpdate.t) (p : Product.t) :
  Product.id (patched product p) = Product.id p.
Proof. reflexivity. Qed.

(** ** Flushes keep the table consistent *)

Lemma consistent_parts (db : Table) :
  consistent db = true <->
  forallb stored db = true
  /\ distinct Session.same_id db = true
  /\ distinct Session.same_name db = true.
Proof.
  unfold consistent. fold stored. rewrite !andb_true_iff. tauto.
Qed.

Lemma stored_parts (p : Product.t) :
  stored p = true <->
  keyed p = true /\ Session.not_null p = true
  /\ Session.bindable p = true.
Proof. unfold stored. rewrite !andb_true_iff. tauto. Qed.

Lemma max_id_ge (db : Table) (p : Product.t) (i : Z) :
  In p db -> Product.id p = Some i -> (i <= Session.max_id db)%Z.
Proof.
  induction db as [|r db IH]; simpl; [contradiction|].
  intros [->|Hp] E.
  - rewrite E. lia.
  - specialize (IH Hp E). destruct (Product.id r); lia.
Qed.

Lemma next_id_fresh (db : Table) (p : Product.t) :
  In p db -> Session.has_id (Session.next_id db) p = false.
Proof.
  intros Hp. unfold Session.has_id, Session.next_id.
  destruct (Product.id p) as [i|] eqn:E; [|reflexivity].
  apply andb_false_iff. right.
  apply Z.eqb_neq. pose proof (max_id_ge db p i Hp E). lia.
Qed.

Lemma commit_add_inv (obj row : Product.t) (db db' : Table) :
  Session.commit_add obj db = inr (row, db') ->
  Session.not_null obj = true
  /\ (forall r, In r db -> Session.same_name obj r = false)
  /\ row = Product.set_id (Some (Session.next_id db)) obj
  /\ db' = db ++ [row].
Proof.
  unfold Session.commit_add.
  destruct (Session.bindable obj) eqn:B; simpl; [|discriminate].
  destruct (Session.not_null obj) eqn:N; simpl; [|discriminate].
  destruct (existsb (Session.same_name obj) db) eqn:X; simpl; [discriminate|].
  destruct (Session.in_int64 (Session.next_id db)) eqn:R; [|discriminate].
  intros E. injection E as <- <-. repeat split.
  intros r Hr. destruct (Session.same_name obj r) eqn:S; [|reflexivity].
  assert (existsb (Session.same_name obj) db = true)
    by (apply existsb_exists; exists r; split; assumption).
  congruence.
Qed.

Lemma commit_add_bounds (obj row : Product.t) (db db' : Table) :
  Session.commit_add obj db = inr (row, db') ->
  Session.bindable obj = true /\ has_room db = true.
Proof.
  unfold Session.commit_add, has_room.
  destruct (Session.bindable obj); simpl; [|discriminate].
  destruct (_ && _); [|discriminate].
  destruct (Session.in_int64 (Session.next_id db)); [auto | discriminate].
Qed.

Lemma commit_add_consistent (obj row : Product.t) (db db' : Table) :
  consistent db = true ->
  Session.commit_add obj db = inr (row, db') ->
  consistent db' = true.
Proof.
  intros C E. pose proof (commit_add_bounds _ _ _ _ E) as [B R].
  unfold has_room in R. apply commit_add_inv in E.
  destruct E as [N [U [-> ->]]].
  apply consistent_parts in C. destruct C as [K [Di Dn]].
  apply consistent_parts. repeat split.
  - rewrite forallb_app, K. simpl. rewrite andb_true_r.
    apply stored_parts. repeat split; [exact R | exact N | exact B].
  - rewrite (distinct_snoc _ db), Di. simpl.
    apply forallb_forall. intros p Hp.
    unfold Session.same_id. simpl. rewrite next_id_fresh by exact Hp.
    reflexivity.
  - rewrite (distinct_snoc _ db), Dn. simpl.
    apply forallb_forall. intros p Hp.
    rewrite same_name_sym.
    rewrite (same_name_ext _ obj p p) by reflexivity.
    rewrite U by exact Hp. reflexivity.
Qed.

Lemma commit_dirty_inv (obj : Product.t) (db db' : Table) :
  Session.commit_dirty obj db = inr db' ->
  Session.not_null obj = true
  /\ (forall r, In r db -> Session.same_id obj r = false ->
        Session.same_name obj r = false)
  /\ db' = replaced obj db.
Proof.
  unfold Session.commit_dirty.
  destruct (Session.bindable obj) eqn:B; simpl; [|discriminate].
  destruct (Session.not_null obj) eqn:N; simpl; [|discriminate].
  destruct (existsb _ db) eqn:X; simpl; [discriminate|].
  intros E. injection E as <-. repeat split.
  intros r Hr I. destruct (Session.same_name obj r) eqn:S; [|reflexivity].
  assert (existsb
            (fun r => negb (Session.same_id obj r) && Session.same_name obj r)
            db = true) as Y.
  { apply existsb_exists. exists r. rewrite I, S. split; auto. }
  congruence.
Qed.

Lemma commit_dirty_bindable (obj : Product.t) (db db' : Table) :
  Session.commit_dirty obj db = inr db' -> Session.bindable obj = true.
Proof.
  unfold Session.commit_dirty.
  destruct (Session.bindable obj); [reflexivity | discriminate].
Qed.

Lemma commit_dirty_succeeds (obj : Product.t) (db : Table) :
  Session.bindable obj = true ->
  Session.not_null obj = true ->
  (forall r, In r db -> Session.same_id obj r = false ->
     Session.same_name obj r = false) ->
  Session.commit_dirty obj db = inr (replaced obj db).
Proof.
  intros B N U. unfold Session.commit_dirty. rewrite B, N. simpl.
  destruct (existsb _ db) eqn:X; [|reflexivity].
  apply existsb_exists in X. destruct X as [r [Hr X]].
  apply andb_prop in X. destruct X as [I S].
  apply negb_true_iff in I. rewrite (U r Hr I) in S. discriminate.
Qed.


Lemma commit_dirty_overflow (obj : Product.t) (db : Table) :
  Session.bindable obj = false ->
  Session.commit_dirty obj db = inl OverflowError.
Proof. intros B. unfold Session.commit_dirty. rewrite B. reflexivity. Qed.

Lemma replaced_distinct_names (obj : Product.t) (db : Table) :
  distinct Session.same_id db = true ->
  distinct Session.same_name db = true ->
  (forall r, In r db -> Session.same_id obj r = false ->
     Session.same_name obj r = false) ->
  distinct Session.same_name (replaced obj db) = true.
Proof.
  unfold replaced. induction db as [|p db IH]; simpl; [reflexivity|].
  intros Di Dn U.
  apply andb_prop in Di. destruct Di as [Fi Di].
  apply andb_prop in Dn. destruct Dn as [Fn Dn].
  rewrite IH
    by first [assumption | intros; apply U; [right|]; assumption].
  rewrite andb_true_r.
  rewrite forallb_forall in Fi, Fn.
  rewrite (forallb_map_in _ _
             (fun r => negb (Session.same_name
                               (if Session.same_id obj p then obj else p)
                               (if Session.same_id obj r then obj else r)))
             db) by reflexivity.
  apply forallb_forall. intros r Hr. apply negb_true_iff.
  destruct (Session.same_id obj p) eqn:Ip, (Session.same_id obj r) eqn:Ir.
  - (* both rows would carry the key of [obj] *)
    apply same_id_ids in Ip.
    rewrite (same_id_ext obj p r r Ip eq_refl) in Ir.
    apply Fi in Hr. rewrite Ir in Hr. discriminate.
  - apply U; [right|]; assumption.
  - rewrite same_name_sym. apply U; [left; reflexivity | assumption].
  - apply negb_true_iff. apply Fn, Hr.
Qed.

Lemma replaced_consistent (obj p : Product.t) (db : Table) :
  consistent db = true ->
  In p db -> Product.id obj = Product.id p ->
  Session.bindable obj = true ->
  Session.not_null obj = true ->
  (forall r, In r db -> Session.same_id obj r = false ->
     Session.same_name obj r = false) ->
  consistent (replaced obj db) = true.
Proof.
  intros C Hp Eid B N U.
  apply consistent_parts in C. destruct C as [K [Di Dn]].
  apply consistent_parts. repeat split.
  - unfold replaced.
    rewrite (forallb_map_in _ _
               (fun r => if Session.same_id obj r
                         then stored obj else stored r) db)
      by (intros r _; destruct (Session.same_id obj r); reflexivity).
    rewrite forallb_forall in *. intros r Hr.
    destruct (Session.same_id obj r); [|apply K, Hr].
    specialize (K p Hp). apply stored_parts in K. destruct K as [Kp _].
    apply stored_parts. repeat split; [|exact N | exact B].
    unfold keyed in *. rewrite Eid. exact Kp.
  - unfold replaced. rewrite distinct_map; [exact Di|].
    intros a b _ _. apply same_id_ext.
    + destruct (Session.same_id obj a) eqn:I; [|reflexivity].
      apply same_id_ids, I.
    + destruct (Session.same_id obj b) eqn:I; [|reflexivity].
      apply same_id_ids, I.
  - apply replaced_distinct_names; assumption.
Qed.

(** Replacing a row by itself changes nothing. *)
Lemma replaced_same (p : Product.t) (db : Table) :
  distinct Session.same_id db = true -> In p db -> replaced p db = db.
Proof.
  intros D Hp. unfold replaced.
  rewrite <- (map_id db) at 2. apply map_ext_in. intros r Hr.
  destruct (Session.same_id p r) eqn:I; [|reflexivity].
  apply (@distinct_In Session.same_id same_id_sym db p r); assumption.
Qed.

Lemma commit_delete_consistent (obj : Product.t) (db : Table) :
  consistent db = true ->
  consistent (Session.commit_delete obj db) = true.
Proof.
  intros C. apply consistent_parts in C. destruct C as [K [Di Dn]].
  unfold Session.commit_delete.
  apply consistent_parts. repeat split.
  - rewrite forallb_forall in *. intros r Hr.
    apply filter_In in Hr. apply K, Hr.
  - apply distinct_filter, Di.
  - apply distinct_filter, Dn.
Qed.

(** ** Every request keeps the table sound *)

Lemma sound_parts (db : Table) :
  sound db = true <-> consistent db = true /\ forallb in_range db = true.
Proof. unfold sound. apply andb_true_iff. Qed.

Lemma in_range_spec (p : Product.t) :
  in_range p = true <->
  exists x n, Product.price p = Some x /\ Product.quantity p = Some n
              /\ PrimFloat.ltb 0 x = true /\ (0 <= n)%Z.
Proof.
  unfold in_range. split.
  - destruct (Product.price p) as [x|]; [|discriminate].
    destruct (Product.quantity p) as [n|]; [|discriminate].
    intros E. apply andb_prop in E. destruct E as [Ex En].
    exists x, n. apply Z.leb_le in En. auto.
  - intros [x [n [-> [-> [Ex En]]]]]. rewrite Ex. simpl.
    apply Z.leb_le, En.
Qed.

Lemma patched_in_range (product : ProductUpdate.t) (p : Product.t) :
  in_range p = true ->
  Session.not_null (patched product p) = true ->
  (forall x, ProductUpdate.price product = Some (Some x) ->
     PrimFloat.ltb 0 x = true) ->
  (forall n, ProductUpdate.quantity product = Some (Some n) -> (0 <= n)%Z) ->
  in_range (patched product p) = true.
Proof.
  intros R N Hx Hn. apply in_range_spec in R.
  destruct R as [x [n [Ex [En [Gx Gn]]]]].
  apply in_range_spec. unfold Session.not_null in N. simpl in *.
  destruct (patch (ProductUpdate.name product) (Product.name p));
    [|discriminate].
  destruct (ProductUpdate.price product) as [[x'|]|]; simpl in *;
    try discriminate;
    destruct (ProductUpdate.quantity product) as [[n'|]|]; simpl in *;
    try discriminate;
    try (rewrite Ex in N; simpl in N; discriminate);
    do 2 eexists; repeat split; eauto.
Qed.

Lemma create_product_sound (product : ProductCreate.t) (db : Table) :
  PrimFloat.ltb 0 (ProductCreate.price product) = true ->
  (0 <= ProductCreate.quantity product)%Z ->
  sound db = true ->
  sound (snd (create_product product db)) = true.
Proof.
  intros Gx Gn S. unfold create_product.
  destruct (Session.commit_add (Product_of product) db) as [e|[row db']] eqn:E.
  - destruct e; exact S.
  - simpl. apply sound_parts in S. destruct S as [C R].
    apply sound_parts. split.
    + eapply commit_add_consistent; eassumption.
    + apply commit_add_inv in E. destruct E as [_ [_ [-> ->]]].
      rewrite forallb_app, R. simpl. rewrite andb_true_r.
      unfold in_range. simpl. rewrite Gx. simpl. apply Z.leb_le, Gn.
Qed.

Lemma update_product_sound (product_id : Z) (product : ProductUpdate.t)
    (db : Table) :
  (forall x, ProductUpdate.price product = Some (Some x) ->
     PrimFloat.ltb 0 x = true) ->
  (forall n, ProductUpdate.quantity product = Some (Some n) -> (0 <= n)%Z) ->
  sound db = true ->
  sound (snd (update_product product_id product db)) = true.
Proof.
  intros Hx Hn S. unfold update_product, Session.first.
  destruct (Session.in_int64 product_id); [|exact S].
  destruct (Session.first_by_id product_id db) as [p|] eqn:F; [|exact S].
  rewrite setattr_loop.
  destruct (Session.commit_dirty (patched product p) db) as [e|db'] eqn:E.
  - destruct e; exact S.
  - simpl. pose proof (commit_dirty_bindable _ _ _ E) as B.
    apply commit_dirty_inv in E. destruct E as [N [U ->]].
    apply first_by_id_Some in F. destruct F as [Hp _].
    apply sound_parts in S. destruct S as [C R].
    apply sound_parts. split.
    + apply (replaced_consistent (patched product p) p); auto.
    + unfold replaced.
      rewrite (forallb_map_in _ _
                 (fun r => if Session.same_id (patched product p) r
                           then in_range (patched product p)
                           else in_range r) db)
        by (intros r _; destruct (Session.same_id _ r); reflexivity).
      rewrite forallb_forall in *. intros r Hr.
      destruct (Session.same_id _ r); [|apply R, Hr].
      apply patched_in_range; auto.
Qed.

Lemma delete_product_sound (product_id : Z) (db : Table) :
  sound db = true -> sound (snd (delete_product product_id db)) = true.
Proof.
  intros S. unfold delete_product, Session.first.
  destruct (Session.in_int64 product_id); [|exact S].
  destruct (Session.first_by_id product_id db) as [p|]; [|exact S].
  simpl. apply sound_parts in S. destruct S as [C R].
  apply sound_parts. split.
  - apply commit_delete_consistent, C.
  - unfold Session.commit_delete.
    rewrite forallb_forall in *. intros r Hr.
    apply filter_In in Hr. apply R, Hr.
Qed.

Lemma list_products_state (price_gte : option float) (db : Table) :
  snd (list_products price_gte db) = db.
Proof. reflexivity. Qed.

Section Reachable.
Context `{LaxConversion}.

Lemma app_sound (r : Request) (db : Table) :
  sound db = true -> sound (snd (app r db)) = true.
Proof.
  intros S. destruct r as [|body|i|i body|i|[t|]]; simpl; try exact S.
  - destruct (ProductCreate.validate body) as [product|] eqn:V; [|exact S].
    apply create_validated in V. destruct V as [_ [Gx [_ Gn]]].
    apply create_product_sound; assumption.
  - unfold get_product, Session.first.
    destruct (Session.in_int64 i); [|exact S].
    destruct (Session.first_by_id i db); exact S.
  - destruct (ProductUpdate.validate body) as [product|] eqn:V; [|exact S].
    apply update_validated in V. destruct V as [Vx Vn].
    apply update_product_sound; [| |exact S].
    + intros x E. apply Vx, E.
    + intros n E. apply Vn, E.
  - apply delete_product_sound, S.
  - destruct (PrimFloat.leb 0 t); exact S.
Qed.

Lemma run_sound (rs : list Request) (db : Table) :
  sound db = true -> sound (run rs db) = true.
Proof.
  revert db. induction rs as [|r rs IH]; intros db S; simpl; [exact S|].
  apply IH, app_sound, S.
Qed.

(** Every table that requests leave, starting from the empty one, is
    consistent. *)
Lemma run_consistent (rs : list Request) : consistent (run rs []) = true.
Proof.
  apply (sound_parts (run rs [])). apply run_sound. reflexivity.
Qed.

End Reachable.

(** ** Names in a consistent table *)


Lemma consistent_row (db : Table) (p : Product.t) :
  consistent db = true -> In p db ->
  keyed p = true /\ Session.not_null p = true.
Proof.
  intros C Hp. apply consistent_parts in C. destruct C as [K _].
  rewrite forallb_forall in K. specialize (K p Hp).
  apply stored_parts in K. split; apply K.
Qed.

Lemma consistent_row_bindable (db : Table) (p : Product.t) :
  consistent db = true -> In p db -> Session.bindable p = true.
Proof.
  intros C Hp. apply consistent_parts in C. destruct C as [K _].
  rewrite forallb_forall in K. specialize (K p Hp).
  apply stored_parts in K. apply K.
Qed.

(** ** Lookups in a table with a row replaced *)

Lemma find_map {A : Type} (f : A -> A) (g : A -> bool) (l : list A) :
  (forall x, g (f x) = g x) ->
  find g (map f l) = option_map f (find g l).
Proof.
  intros E. induction l as [|a l IH]; simpl; [reflexivity|].
  rewrite E. destruct (g a); [reflexivity | exact IH].
Qed.

Lemma first_by_id_replaced (i : Z) (obj : Product.t) (db : Table) :
  Session.first_by_id i (replaced obj db)
  = option_map (fun r => if Session.same_id obj r then obj else r)
      (Session.first_by_id i db).
Proof.
  unfold Session.first_by_id, replaced. apply find_map.
  intros r. destruct (Session.same_id obj r) eqn:I; [|reflexivity].
  unfold Session.has_id. rewrite (same_id_ids _ _ I). reflexivity.
Qed.

Lemma has_id_keyed (i : Z) (p : Product.t) :
  Session.has_id i p = true -> Product.id p = Some i.
Proof.
  intros E. apply has_id_spec in E. apply E.
Qed.

Lemma has_id_other (i j : Z) (p : Product.t) :
  Session.has_id i p = true -> j <> i -> Session.has_id j p = false.
Proof.
  intros E N. apply has_id_keyed in E. unfold Session.has_id. rewrite E.
  apply andb_false_iff. right. apply Z.eqb_neq. congruence.
Qed.

(** ** When an update goes through *)

Lemma name_collides_spec (i : Z) (product : ProductUpdate.t) (db : Table) :
  name_collides i product db = true <->
  exists n other,
    ProductUpdate.name product = Some (Some n) /\ In other db
    /\ Session.has_id i other = false /\ Product.name other = Some n.
Proof.
  unfold name_collides, named. split.
  - destruct (ProductUpdate.name product) as [[n|]|]; try discriminate.
    intros X. apply existsb_exists in X. destruct X as [r [Hr X]].
    apply andb_prop in X. destruct X as [I S].
    apply negb_true_iff in I.
    destruct (Product.name r) as [m|] eqn:E; [|discriminate].
    apply String.eqb_eq in S. subst m.
    exists n, r. auto.
  - intros [n [r [-> [Hr [I E]]]]].
    apply existsb_exists. exists r. split; [exact Hr|].
    rewrite I, E, String.eqb_refl. reflexivity.
Qed.

(** The quantity that the UPDATE binds: the one of the payload when it
    gives one, the stored one otherwise. *)
Lemma patched_bindable (product : ProductUpdate.t) (p : Product.t) :
  Session.bindable (patched product p)
  = if overflows product then false
    else match ProductUpdate.quantity product with
         | Some _ => true
         | None => Session.bindable p
         end.
Proof.
  unfold Session.bindable, overflows. simpl.
  destruct (ProductUpdate.quantity product) as [[q|]|]; simpl;
    try reflexivity.
  destruct (Session.in_int64 q); reflexivity.
Qed.

Lemma patched_fits (product : ProductUpdate.t) (p : Product.t) :
  overflows product = false -> Session.bindable p = true ->
  Session.bindable (patched product p) = true.
Proof.
  intros O B. rewrite patched_bindable, O, B.
  destruct (ProductUpdate.quantity product); reflexivity.
Qed.


(** The flush of an update fails when a NOT NULL column is set to [None]. *)
Lemma commit_dirty_null (product : ProductUpdate.t) (p : Product.t)
    (db : Table) :
  Session.bindable (patched product p) = true ->
  null_in_required product = true ->
  Session.commit_dirty (patched product p) db = inl IntegrityError.
Proof.
  intros B N. unfold Session.commit_dirty. rewrite B. simpl.
  replace (Session.not_null (patched product p)) with false; [reflexivity|].
  unfold null_in_required in N. unfold Session.not_null. simpl.
  destruct (ProductUpdate.name product) as [[n|]|],
    (ProductUpdate.price product) as [[x|]|],
    (ProductUpdate.quantity product) as [[q|]|]; simpl;
    try discriminate; try reflexivity;
    repeat match goal with |- context [match ?o with _ => _ end] =>
             destruct o end; reflexivity.
Qed.

(** It succeeds otherwise, on a consistent table. *)
Lemma update_product_succeeds (i : Z) (product : ProductUpdate.t)
    (p : Product.t) (db : Table) :
  consistent db = true ->
  Session.first_by_id i db = Some p ->
  null_in_required product = false ->
  name_collides i product db = false ->
  overflows product = false ->
  update_product i product db
  = (Ok_product (patched product p), replaced (patched product p) db).
Proof.
  intros C F N X O. unfold update_product.
  rewrite (first_found i db p F), setattr_loop.
  apply first_by_id_Some in F. destruct F as [Hp I].
  destruct (consistent_row db p C Hp) as [_ Np].
  rewrite commit_dirty_succeeds; [reflexivity| | |].
  - apply (patched_fits product p O).
    apply (consistent_row_bindable db p C Hp).
  - unfold Session.not_null in *. unfold null_in_required in N. simpl.
    destruct (Product.name p), (Product.price p), (Product.quantity p);
      try discriminate.
    destruct (ProductUpdate.name product) as [[n|]|],
      (ProductUpdate.price product) as [[x|]|],
      (ProductUpdate.quantity product) as [[q|]|]; simpl;
      try discriminate; reflexivity.
  - intros r Hr Ir.
    rewrite (has_id_same_id i (patched product p) r) in Ir
      by (unfold Session.has_id in *; simpl; exact I).
    destruct (Session.same_name (patched product p) r) eqn:S; [|reflexivity].
    unfold Session.same_name in S. simpl in S.
    destruct (ProductUpdate.name product) as [[n|]|] eqn:En; simpl in S.
    + (* a new name: no other row has it *)
      assert (name_collides i product db = true) as Y; [|congruence].
      apply name_collides_spec. exists n, r. repeat split; try assumption.
      destruct (Product.name r) as [m|]; [|discriminate].
      apply String.eqb_eq in S. congruence.
    + discriminate.
    + (* the name of the row itself: names are unique *)
      apply consistent_parts in C. destruct C as [_ [_ Dn]].
      assert (p = r) as <-
        by (apply (@distinct_In Session.same_name same_name_sym db);
            assumption).
      congruence.
Qed.

Lemma patched_nothing (p : Product.t) :
  patched (ProductUpdate.mk None None None None None) p = p.
Proof. destruct p; reflexivity. Qed.

(** ** The answers of the handlers, case by case *)

Lemma create_product_result (product : ProductCreate.t) (db : Table) :
  create_product product db
  = if Session.in_int64 (ProductCreate.quantity product)
    then if existsb (Session.same_name (Product_of product)) db
         then (HTTPException 400
                 "Product creation failed due to duplicate name.", db)
         else if has_room db
              then let row :=
                     Product.set_id (Some (Session.next_id db))
                       (Product_of product) in
                   (Ok_product row, db ++ [row])
              else (HTTPException 500
                      "An error occurred while creating the product.", db)
    else (HTTPException 500
            "An error occurred while creating the product.", db).
Proof.
  unfold create_product, Session.commit_add, has_room.
  unfold Session.bindable at 1. simpl.
  destruct (Session.in_int64 (ProductCreate.quantity product)); simpl;
    [|reflexivity].
  destruct (existsb _ db); simpl; [reflexivity|].
  destruct (Session.in_int64 (Session.next_id db)); reflexivity.
Qed.



Lemma first_absent (i : Z) (db : Table) :
  Session.in_int64 i = true ->
  (forall p, In p db -> Session.has_id i p = false) ->
  Session.first i db = inr None.
Proof.
  intros R N. unfold Session.first. rewrite R. f_equal.
  destruct (Session.first_by_id i db) as [p|] eqn:F; [|reflexivity].
  apply first_by_id_Some in F. destruct F as [Hp I].
  rewrite (N p Hp) in I. discriminate.
Qed.

Lemma first_overflow (i : Z) (db : Table) :
  Session.in_int64 i = false -> Session.first i db = inl OverflowError.
Proof. intros R. unfold Session.first. rewrite R. reflexivity. Qed.

(** An update whose quantity does not fit is answered 500. *)
Lemma update_product_overflow (i : Z) (product : ProductUpdate.t)
    (p : Product.t) (db : Table) :
  Session.first_by_id i db = Some p ->
  overflows product = true ->
  update_product i product db = (InternalServerError, db).
Proof.
  intros F O. unfold update_product.
  rewrite (first_found i db p F), setattr_loop.
  rewrite commit_dirty_overflow; [reflexivity|].
  rewrite patched_bindable, O. reflexivity.
Qed.

(** ** Validation of a request comes before its handler *)

Lemma no_row_first_by_id (i : Z) (db : Table) :
  (forall p, In p db -> Session.has_id i p = false) <->
  Session.first_by_id i db = None.
Proof.
  split; [|apply first_by_id_None].
  intros N. destruct (Session.first_by_id i db) as [p|] eqn:F; [|reflexivity].
  apply first_by_id_Some in F. destruct F as [Hp I].
  rewrite (N p Hp) in I. discriminate.
Qed.

Lemma price_ge_spec (t : float) (p : Product.t) :
  Session.price_ge t p = true <->
  exists x, Product.price p = Some x /\ PrimFloat.leb t x = true.
Proof.
  unfold Session.price_ge. split.
  - destruct (Product.price p) as [x|]; [|discriminate].
    intros E. exists x. auto.
  - intros [x [-> E]]. exact E.
Qed.

Lemma list_products_filter (t : float) (db : Table) :
  list_products (Some t) db
  = (Ok_products (filter (Session.price_ge t) db), db).
Proof.
  unfold list_products. destruct (filter (Session.price_ge t) db); reflexivity.
Qed.

Lemma list_products_all (db : Table) :
  list_products None db = (Ok_products db, db).
Proof. unfold list_products. destruct db; reflexivity. Qed.

Section Claims.
Context `{LaxConversion}.

Lemma create_blank_rejected (k : string) (body : Body) (v : string) :
  k = "name" \/ k = "description" \/ k = "category" ->
  dict_get k body = Some (JStr v) -> strip v = "" ->
  ProductCreate.validate body = None.
Proof.
  intros K G S. unfold ProductCreate.validate.
  assert (forall A (schema : json -> option A),
             Pydantic.before ProductCreate.empty_string_not_allowed schema
               (JStr v) = None) as B
    by (intros; unfold Pydantic.before; simpl; rewrite S; reflexivity).
  destruct K as [-> | [-> | ->]]; rewrite G; simpl; rewrite ?B; simpl.
  - reflexivity.
  - repeat match goal with
           | |- bind ?m _ = None => destruct m; simpl; try reflexivity
           end.
  - repeat match goal with
           | |- bind ?m _ = None => destruct m; simpl; try reflexivity
           end.
Qed.

Lemma update_blank_rejected (k : string) (body : Body) (v : string) :
  k = "name" \/ k = "description" \/ k = "category" ->
  dict_get k body = Some (JStr v) -> strip v = "" ->
  ProductUpdate.validate body = None.
Proof.
  intros K G S. unfold ProductUpdate.validate.
  assert (forall A (schema : json -> option A),
             Pydantic.before ProductUpdate.empty_string_not_allowed_update
               schema (JStr v) = None) as B
    by (intros; unfold Pydantic.before; simpl; rewrite S; reflexivity).
  destruct K as [-> | [-> | ->]]; rewrite G; simpl; rewrite ?B; simpl.
  - reflexivity.
  - repeat match goal with
           | |- bind ?m _ = None => destruct m; simpl; try reflexivity
           end.
  - repeat match goal with
           | |- bind ?m _ = None => destruct m; simpl; try reflexivity
           end.
Qed.

Lemma create_out_of_range (body : Body) :
  (exists v x, dict_get "price" body = Some v /\ lax_float v = Some x
               /\ PrimFloat.ltb 0 x = false)
  \/ (exists v n, dict_get "quantity" body = Some v /\ lax_int v = Some n
                  /\ (n < 0)%Z) ->
  ProductCreate.validate body = None.
Proof.
  intros V. destruct (ProductCreate.validate body) as [product|] eqn:E;
    [|reflexivity].
  apply create_validated in E.
  destruct E as [[v [G L]] [Gx [[w [G' L']] Gn]]].
  destruct V as [[v' [x [Gv [Lv Nx]]]]|[v' [n [Gv [Lv Nn]]]]].
  - assert (v' = v) as -> by congruence.
    assert (x = ProductCreate.price product) as -> by congruence.
    congruence.
  - assert (v' = w) as -> by congruence.
    assert (n = ProductCreate.quantity product) as -> by congruence.
    lia.
Qed.

Lemma update_out_of_range (body : Body) :
  (exists v x, dict_get "price" body = Some v /\ v <> JNull
               /\ lax_float v = Some x /\ PrimFloat.ltb 0 x = false)
  \/ (exists v n, dict_get "quantity" body = Some v /\ v <> JNull
                  /\ lax_int v = Some n /\ (n < 0)%Z) ->
  ProductUpdate.validate body = None.
Proof.
  intros V. unfold ProductUpdate.validate.
  destruct V as [[v [x [G [N [L X]]]]]|[v [n [G [N [L X]]]]]]; rewrite G.
  - assert (Pydantic.tracked
              (Pydantic.nullable (Pydantic.float_schema 0)) (Some v) = None)
      as ->.
    { simpl. unfold Pydantic.nullable, Pydantic.float_schema.
      rewrite L. simpl. rewrite X. destruct v; try reflexivity.
      contradiction. }
    destruct (Pydantic.tracked _ (dict_get "name" body)); reflexivity.
  - assert (Pydantic.tracked
              (Pydantic.nullable (Pydantic.int_schema 0)) (Some v) = None)
      as ->.
    { simpl. unfold Pydantic.nullable, Pydantic.int_schema.
      rewrite L. simpl. destruct (Z.leb_spec 0 n); [lia|].
      destruct v; try reflexivity. contradiction. }
    destruct (Pydantic.tracked _ (dict_get "name" body)); simpl;
      [|reflexivity].
    destruct (Pydantic.tracked _ (dict_get "price" body)); reflexivity.
Qed.

End Claims.

Lemma filter_nothing {A : Type} (f : A -> bool) (l : list A) :
  (forall x, In x l -> f x = false) -> filter f l = [].
Proof.
  induction l as [|a l IH]; simpl; [reflexivity|].
  intros N. rewrite (N a) by (left; reflexivity).
  apply IH. intros x Hx. apply N. right. exact Hx.
Qed.

Lemma first_by_id_replaced_row (i : Z) (obj p : Product.t) (db : Table) :
  Product.id obj = Product.id p ->
  Session.first_by_id i db = Some p ->
  Session.first_by_id i (replaced obj db) = Some obj.
Proof.
  intros E F. rewrite first_by_id_replaced, F. simpl.
  apply first_by_id_Some in F. destruct F as [_ I].
  assert (Session.has_id i obj = true) as I'
    by (unfold Session.has_id in *; rewrite E; exact I).
  rewrite (has_id_same_id i obj p I'), I. reflexivity.
Qed.

Lemma first_by_id_replaced_other (i : Z) (obj p : Product.t) (db : Table) :
  Product.id obj = Product.id p ->
  Session.first_by_id i db = Some p ->
  forall j, j <> i ->
    Session.first_by_id j (replaced obj db) = Session.first_by_id j db.
Proof.
  intros E F j J. rewrite first_by_id_replaced.
  destruct (Session.first_by_id j db) as [r|] eqn:Fj; [|reflexivity].
  simpl. apply first_by_id_Some in Fj. destruct Fj as [_ Ij].
  apply first_by_id_Some in F. destruct F as [_ I].
  assert (Session.has_id i obj = true) as I'
    by (unfold Session.has_id in *; rewrite E; exact I).
  rewrite (has_id_same_id i obj r I').
  rewrite (has_id_other j i r Ij) by congruence. reflexivity.
Qed.

(** * The specification, claim by claim *)

Section Spec.
Context `{LaxConversion}.





(** C5 (list filter), as amended. For every threshold [t] with [t >= 0],
    [GET /products/?price_gte=t] returns exactly the stored rows whose
    price is at least [t], in the order of the table, and an empty list
    when no row qualifies; the table is unchanged. A threshold that is not
    [>= 0] is refused by the validation of the query. Without [price_gte]
    every stored row is returned. *)
Theorem C5_list_filter (db : Table) :
  (forall t, PrimFloat.leb 0 t = true ->
     app (GET_products (Some t)) db
     = (Ok_products (filter (Session.price_ge t) db), db)
     /\ (forall p, In p (filter (Session.price_ge t) db) <->
           In p db
           /\ exists x, Product.price p = Some x /\ PrimFloat.leb t x = true)
     /\ ((forall p, In p db -> Session.price_ge t p = false) ->
         app (GET_products (Some t)) db = (Ok_products [], db)))
  /\ (forall t, PrimFloat.leb 0 t = false ->
        app (GET_products (Some t)) db = (RequestValidationError, db))
  /\ app (GET_products None) db = (Ok_products db, db).
Proof.
  split; [|split].
  - intros t G. split; [|split].
    + simpl. rewrite G. apply list_products_filter.
    + intros p. rewrite filter_In, price_ge_spec. reflexivity.
    + intros N. simpl.
      rewrite G, list_products_filter, (filter_nothing _ db N). reflexivity.
  - intros t G. simpl. rewrite G. reflexivity.
  - apply list_products_all.
Qed.

(** C6 (order of lookup and validation), as amended. The body of a
    [PUT /products/{product_id}] is validated before the handler runs and
    looks the key up: a body that fails validation gets the validation
    error whether or not a row has the key, and when [product_id] is a
    64-bit integer that no row has as its key the response is 404 "Product
    not found" exactly for the bodies that pass validation. The table is
    unchanged either way. *)
Theorem C6_update_validates_first (db : Table) (product_id : Z)
    (body : Body) :
  (ProductUpdate.validate body = None ->
   app (PUT_product product_id body) db = (RequestValidationError, db))
  /\ (Session.in_int64 product_id = true ->
      (forall p, In p db -> Session.has_id product_id p = false) ->
      app (PUT_product product_id body) db
      = match ProductUpdate.validate body with
        | Some _ => (HTTPException 404 "Product not found", db)
        | None => (RequestValidationError, db)
        end).
Proof.
  split.
  - intros V. unfold app. rewrite V. reflexivity.
  - intros R N. pose proof (first_absent product_id db R N) as F.
    unfold app. destruct (ProductUpdate.validate body); [|reflexivity].
    unfold update_product. rewrite F. reflexivity.
Qed.

(** C7 (ranges). In every table that a sequence of requests leaves, every
    row has a price [> 0] and a quantity [>= 0]. A create whose price is
    not [> 0] or whose quantity is negative is refused by validation, and
    so is an update that gives such a value; the table is then the one
    before the request. *)
Theorem C7_stored_values_in_range :
  (forall rs p, In p (run rs []) ->
     exists x n,
       Product.price p = Some x /\ Product.quantity p = Some n
       /\ PrimFloat.ltb 0 x = true /\ (0 <= n)%Z)
  /\ (forall db body,
        (exists v x, dict_get "price" body = Some v /\ lax_float v = Some x
                     /\ PrimFloat.ltb 0 x = false)
        \/ (exists v n, dict_get "quantity" body = Some v
                        /\ lax_int v = Some n /\ (n < 0)%Z) ->
        app (POST_products body) db = (RequestValidationError, db))
  /\ (forall db product_id body,
        (exists v x, dict_get "price" body = Some v /\ v <> JNull
                     /\ lax_float v = Some x /\ PrimFloat.ltb 0 x = false)
        \/ (exists v n, dict_get "quantity" body = Some v /\ v <> JNull
                        /\ lax_int v = Some n /\ (n < 0)%Z) ->
        app (PUT_product product_id body) db = (RequestValidationError, db)).
Proof.
  split; [|split].
  - intros rs p Hp. apply in_range_spec.
    assert (sound (run rs []) = true) as S by (apply run_sound; reflexivity).
    apply sound_parts in S. destruct S as [_ R].
    rewrite forallb_forall in R. apply R, Hp.
  - intros db body V. simpl.
    rewrite (create_out_of_range body V). reflexivity.
  - intros db product_id body V. simpl.
    rewrite (update_out_of_range body V). reflexivity.
Qed.

(** C8 (blank strings). A string [v] with [v.strip() == ""] given for
    [name], [description] or [category] makes the create request and the
    update request fail validation; the table is the one before the
    request. *)
Theorem C8_blank_string_rejected (db : Table) (product_id : Z) (k : string)
    (body : Body) (v : string) :
  k = "name" \/ k = "description" \/ k = "category" ->
  dict_get k body = Some (JStr v) ->
  strip v = "" ->
  app (POST_products body) db = (RequestValidationError, db)
  /\ app (PUT_product product_id body) db = (RequestValidationError, db).
Proof.
  intros K G S. simpl.
  rewrite (create_blank_rejected k body v K G S).
  rewrite (update_blank_rejected k body v K G S).
  split; reflexivity.
Qed.

(** C9 (explicit null). The validator of the update schema lets [null]
    through, and a body that gives [null] for [description] (for
    [category]) validates to an update with that field set to [None]. On a
    consistent table with a row [p] of key [product_id], the request with
    the body [{"description": null}] succeeds: the response, and the row
    that a lookup of the key then finds, has the description [None] and
    every other attribute of [p], whatever the description of [p] was; the
    same holds for [category]. *)
Theorem C9_update_explicit_null (db : Table) (product_id : Z)
    (p : Product.t) :
  consistent db = true ->
  Session.first_by_id product_id db = Some p ->
  ProductUpdate.empty_string_not_allowed_update JNull = Some JNull
  /\ (forall body product,
        ProductUpdate.validate body = Some product ->
        (dict_get "description" body = Some JNull ->
         ProductUpdate.description product = Some None)
        /\ (dict_get "category" body = Some JNull ->
            ProductUpdate.category product = Some None))
  /\ (exists p' db',
        app (PUT_product product_id [("description", JNull)]) db
        = (Ok_product p', db')
        /\ app (GET_product product_id) db' = (Ok_product p', db')
        /\ Product.description p' = None
        /\ Product.id p' = Product.id p
        /\ Product.name p' = Product.name p
        /\ Product.price p' = Product.price p
        /\ Product.quantity p' = Product.quantity p
        /\ Product.category p' = Product.category p
        /\ (forall j, j <> product_id ->
              Session.first_by_id j db' = Session.first_by_id j db))
  /\ (exists p' db',
        app (PUT_product product_id [("category", JNull)]) db
        = (Ok_product p', db')
        /\ app (GET_product product_id) db' = (Ok_product p', db')
        /\ Product.category p' = None
        /\ Product.id p' = Product.id p
        /\ Product.name p' = Product.name p
        /\ Product.price p' = Product.price p
        /\ Product.quantity p' = Product.quantity p
        /\ Product.description p' = Product.description p
        /\ (forall j, j <> product_id ->
              Session.first_by_id j db' = Session.first_by_id j db)).
Proof.
  intros C F. split; [reflexivity|]. split; [|split].
  - intros body product V. unfold ProductUpdate.validate in V.
    apply bind_Some in V. destruct V as [n [_ V]].
    apply bind_Some in V. destruct V as [x [_ V]].
    apply bind_Some in V. destruct V as [q [_ V]].
    apply bind_Some in V. destruct V as [d [Hd V]].
    apply bind_Some in V. destruct V as [c [Hc V]].
    injection V as <-. simpl. split; intros G.
    + rewrite G in Hd. simpl in Hd. congruence.
    + rewrite G in Hc. simpl in Hc. congruence.
  - pose (u := ProductUpdate.mk None None None (Some None) None).
    exists (patched u p), (replaced (patched u p) db).
    split.
    { change (app (PUT_product product_id [("description", JNull)]) db)
        with (update_product product_id u db).
      exact (update_product_succeeds product_id u p db C F
               eq_refl eq_refl eq_refl). }
    split.
    { unfold app, get_product.
      rewrite (first_found product_id _ (patched u p)
                 (first_by_id_replaced_row product_id (patched u p) p db
                    eq_refl F)).
      reflexivity. }
    repeat (split; [reflexivity|]).
    apply (first_by_id_replaced_other product_id (patched u p) p db
             eq_refl F).
  - pose (u := ProductUpdate.mk None None None None (Some None)).
    exists (patched u p), (replaced (patched u p) db).
    split.
    { change (app (PUT_product product_id [("category", JNull)]) db)
        with (update_product product_id u db).
      exact (update_product_succeeds product_id u p db C F
               eq_refl eq_refl eq_refl). }
    split.
    { unfold app, get_product.
      rewrite (first_found product_id _ (patched u p)
                 (first_by_id_replaced_row product_id (patched u p) p db
                    eq_refl F)).
      reflexivity. }
    repeat (split; [reflexivity|]).
    apply (first_by_id_replaced_other product_id (patched u p) p db
             eq_refl F).
Qed.

(** C10 (empty payload). On a consistent table with a row [p] of key
    [product_id], [PUT /products/{product_id}] with the body [{}] succeeds
    with [p] as it was, and the table is the one before the request. *)
Theorem C10_update_empty_payload (db : Table) (product_id : Z)
    (p : Product.t) :
  consistent db = true ->
  Session.first_by_id product_id db = Some p ->
  app (PUT_product product_id []) db = (Ok_product p, db).
Proof.
  intros C F.
  change (app (PUT_product product_id []) db)
    with (update_product product_id
            (ProductUpdate.mk None None None None None) db).
  rewrite (update_product_succeeds product_id _ p db C F)
    by reflexivity.
  rewrite patched_nothing.
  apply consistent_parts in C. destruct C as [_ [Di _]].
  rewrite (replaced_same p db Di) by apply (first_by_id_Some _ _ _ F).
  reflexivity.
Qed.

End Spec.

(** * The claims on the shop of the examples *)





Lemma C5_witness :
  PrimFloat.leb 0 15 = true
  /\ Demo.serve (GET_products (Some 15%float)) Demo.shop
     = (Ok_products [Demo.gadget_row], Demo.shop)
  /\ PrimFloat.leb 0 100 = true
  /\ (forall p, In p Demo.shop -> Session.price_ge 100 p = false)
  /\ Demo.serve (GET_products (Some 100%float)) Demo.shop
     = (Ok_products [], Demo.shop).
Proof.
  assert (forall p, In p Demo.shop -> Session.price_ge 100 p = false) as N
    by (intros p [<-|[<-|[]]]; reflexivity).
  destruct (@C5_list_filter Demo.json_numbers Demo.shop) as [F _].
  split; [reflexivity|].
  split; [exact (proj1 (F 15%float eq_refl))|].
  split; [reflexivity|]. split; [exact N|].
  exact (proj2 (proj2 (F 100%float eq_refl)) N).
Defined.

Lemma C6_witness :
  @ProductUpdate.validate Demo.json_numbers [("price", JInt (-1))] = None
  /\ Demo.serve (PUT_product 1 [("price", JInt (-1))]) Demo.shop
     = (RequestValidationError, Demo.shop)
  /\ Session.in_int64 9999 = true
  /\ (forall p, In p Demo.shop -> Session.has_id 9999 p = false)
  /\ Demo.serve (PUT_product 9999 [("price", JInt 80)]) Demo.shop
     = (HTTPException 404 "Product not found", Demo.shop).
Proof.
  assert (forall p, In p Demo.shop -> Session.has_id 9999 p = false) as N
    by (intros p [<-|[<-|[]]]; reflexivity).
  split; [reflexivity|]. split.
  - exact (proj1 (@C6_update_validates_first Demo.json_numbers Demo.shop 1
                    [("price", JInt (-1))]) eq_refl).
  - split; [reflexivity|]. split; [exact N|].
    exact (proj2 (@C6_update_validates_first Demo.json_numbers Demo.shop
                    9999 [("price", JInt 80)]) eq_refl N).
Defined.

Lemma C7_witness :
  let rs := [POST_products Demo.widget; POST_products Demo.gadget] in
  let body :=
    [("name", JStr "Gizmo"); ("price", JInt (-1)); ("quantity", JInt 5)] in
  In Demo.gadget_row (@run Demo.json_numbers rs [])
  /\ (exists x n,
        Product.price Demo.gadget_row = Some x
        /\ Product.quantity Demo.gadget_row = Some n
        /\ PrimFloat.ltb 0 x = true /\ (0 <= n)%Z)
  /\ (exists v x,
        dict_get "price" body = Some v
        /\ @lax_float Demo.json_numbers v = Some x
        /\ PrimFloat.ltb 0 x = false)
  /\ Demo.serve (POST_products body) Demo.shop
     = (RequestValidationError, Demo.shop).
Proof.
  intros rs body.
  assert (In Demo.gadget_row (@run Demo.json_numbers rs [])) as I
    by (right; left; reflexivity).
  assert (exists v x,
             dict_get "price" body = Some v
             /\ @lax_float Demo.json_numbers v = Some x
             /\ PrimFloat.ltb 0 x = false) as V
    by (exists (JInt (-1)), (-1)%float; repeat split).
  destruct (@C7_stored_values_in_range Demo.json_numbers) as [R [P _]].
  split; [exact I|]. split; [exact (R rs Demo.gadget_row I)|].
  split; [exact V|].
  exact (P Demo.shop body (or_introl V)).
Defined.

Lemma C8_witness :
  let body :=
    [("name", JStr "Gizmo"); ("price", JInt 3); ("quantity", JInt 1);
     ("description", JStr "   ")] in
  dict_get "description" body = Some (JStr "   ")
  /\ strip "   " = ""
  /\ Demo.serve (POST_products body) Demo.shop
     = (RequestValidationError, Demo.shop)
  /\ Demo.serve (PUT_product 1 body) Demo.shop
     = (RequestValidationError, Demo.shop).
Proof.
  intros body. split; [reflexivity|]. split; [reflexivity|].
  exact (@C8_blank_string_rejected Demo.json_numbers Demo.shop 1
           "description" body "   " (or_intror (or_introl eq_refl))
           eq_refl eq_refl).
Defined.

Lemma C9_witness :
  let row :=
    Product.mk (Some 1%Z) (Some "Widget") (Some 10%float) (Some 5%Z)
      None (Some "Tools") in
  let described :=
    Product.mk (Some 1%Z) (Some "Widget") (Some 10%float) (Some 5%Z)
      (Some "Blue") (Some "Tools") in
  let db := [described; Demo.gadget_row] in
  consistent db = true
  /\ Session.first_by_id 1 db = Some described
  /\ exists p' db',
       Demo.serve (PUT_product 1 [("description", JNull)]) db
       = (Ok_product p', db')
       /\ Demo.serve (GET_product 1) db' = (Ok_product p', db')
       /\ Product.description p' = None
       /\ p' = row.
Proof.
  intros row described db.
  split; [reflexivity|]. split; [reflexivity|].
  destruct (proj1 (proj2 (proj2
              (@C9_update_explicit_null Demo.json_numbers db 1 described
                 eq_refl eq_refl))))
    as [p' [db' [U [G [D [Ei [En [Ep [Eq Ec]]]]]]]]].
  exists p', db'. split; [exact U|]. split; [exact G|]. split; [exact D|].
  destruct Ec as [Ec _]. destruct p'; cbn in *; subst; reflexivity.
Defined.

Lemma C10_witness :
  consistent Demo.shop = true
  /\ Session.first_by_id 1 Demo.shop = Some Demo.widget_row
  /\ Demo.serve (PUT_product 1 []) Demo.shop
     = (Ok_product Demo.widget_row, Demo.shop).
Proof.
  split; [reflexivity|]. split; [reflexivity|].
  exact (@C10_update_empty_payload Demo.json_numbers Demo.shop 1
           Demo.widget_row eq_refl eq_refl).
Defined.

(** * Where the code departs from the specification *)





(** C5 as stated: the threshold [-1]. Every row of the shop has a price of
    at least [-1], and the response is the validation error, not the rows. *)
Lemma C5_negative_threshold :
  filter (Session.price_ge (-1)%float) Demo.shop
  = [Demo.widget_row; Demo.gadget_row]
  /\ Demo.serve (GET_products (Some (-1)%float)) Demo.shop
     = (RequestValidationError, Demo.shop)
  /\ fst (Demo.serve (GET_products (Some (-1)%float)) Demo.shop)
     <> Ok_products (filter (Session.price_ge (-1)%float) Demo.shop).
Proof. repeat (split; [reflexivity|]). discriminate. Qed.

(** C6 as stated: no row of the shop has the key 9999, and a body that
    fails validation gets the validation error there, not 404. No row has
    the key [2 ^ 63] either, and a body that passes validation gets status
    500 there. *)
Lemma C6_invalid_payload_unknown_id :
  Session.first_by_id 9999 Demo.shop = None
  /\ @ProductUpdate.validate Demo.json_numbers [("price", JInt (-1))] = None
  /\ Demo.serve (PUT_product 9999 [("price", JInt (-1))]) Demo.shop
     = (RequestValidationError, Demo.shop)
  /\ fst (Demo.serve (PUT_product 9999 [("price", JInt (-1))]) Demo.shop)
     <> HTTPException 404 "Product not found"
  /\ Session.first_by_id Demo.too_big Demo.shop = None
  /\ Demo.serve (PUT_product Demo.too_big [("price", JInt 80)]) Demo.shop
     = (InternalServerError, Demo.shop).
Proof.
  repeat (split; [reflexivity|]). split; [discriminate|].
  split; reflexivity.
Qed.

(** * Further properties of the handlers *)

Lemma find_filter {A : Type} (g keep : A -> bool) (l : list A) :
  (forall x, g x = true -> keep x = true) ->
  find g (filter keep l) = find g l.
Proof.
  intros K. induction l as [|a l IH]; simpl; [reflexivity|].
  destruct (keep a) eqn:Ka; simpl.
  - destruct (g a); [reflexivity | exact IH].
  - destruct (g a) eqn:Ga; [|exact IH].
    rewrite (K a Ga) in Ka. discriminate.
Qed.


(** The table after [delete_product]: the rows with the key are gone, the
    others stay in their order, whether or not the key was found. *)
Lemma delete_product_table (i : Z) (db : Table) :
  snd (delete_product i db) = filter (fun r => negb (Session.has_id i r)) db.
Proof.
  unfold delete_product, Session.first.
  destruct (Session.in_int64 i) eqn:R.
  - destruct (Session.first_by_id i db) as [p|] eqn:F; simpl.
    + apply first_by_id_Some in F. destruct F as [_ I].
      unfold Session.commit_delete. apply filter_ext. intros r.
      rewrite (has_id_same_id i p r I). reflexivity.
    + symmetry. apply forallb_filter_id. apply forallb_forall. intros r Hr.
      rewrite (first_by_id_None i db F r Hr). reflexivity.
  - simpl. symmetry. apply forallb_filter_id. apply forallb_forall.
    intros r _. destruct (Session.has_id i r) eqn:I; [|reflexivity].
    apply has_id_spec in I. destruct I as [_ I]. congruence.
Qed.

Lemma first_by_id_deleted (i : Z) (db : Table) :
  Session.first_by_id i (filter (fun r => negb (Session.has_id i r)) db)
  = None.
Proof.
  apply no_row_first_by_id. intros p Hp. apply filter_In in Hp.
  destruct Hp as [_ N]. apply negb_true_iff, N.
Qed.


Section Handlers.
Context `{LaxConversion}.

(** X1. A request changes the table only when it is a create, an update or
    a delete that is answered with success: every read, every request that
    fails validation and every request answered with an error leaves the
    table as it was. *)
Theorem X1_table_changes_only_on_success (r : Request) (db : Table) :
  snd (app r db) <> db ->
  (exists body p, r = POST_products body /\ fst (app r db) = Ok_product p)
  \/ (exists i body p,
        r = PUT_product i body /\ fst (app r db) = Ok_product p)
  \/ (exists i,
        r = DELETE_product i
        /\ fst (app r db) = Ok_message "Product deleted successfully").
Proof.
  destruct r as [|body|i|i body|i|[t|]]; simpl; intros N.
  - contradiction N; reflexivity.
  - left. destruct (ProductCreate.validate body) as [product|];
      [|contradiction N; reflexivity].
    rewrite create_product_result in *.
    destruct (Session.in_int64 _); [|contradiction N; reflexivity].
    destruct (existsb _ db); [contradiction N; reflexivity|].
    destruct (has_room db); [|contradiction N; reflexivity].
    simpl. eauto.
  - unfold get_product in N.
    destruct (Session.first i db) as [e|[p|]]; contradiction N; reflexivity.
  - right. left. destruct (ProductUpdate.validate body) as [product|];
      [|contradiction N; reflexivity].
    unfold update_product in *.
    destruct (Session.first i db) as [e|[p|]];
      try (contradiction N; reflexivity).
    destruct (Session.commit_dirty _ db) as [[| |]|db'];
      try (contradiction N; reflexivity).
    simpl. eauto.
  - right. right. unfold delete_product in *.
    destruct (Session.first i db) as [e|[p|]];
      try (contradiction N; reflexivity).
    simpl. eauto.
  - destruct (PrimFloat.leb 0 t); contradiction N; reflexivity.
  - contradiction N; reflexivity.
Qed.

(** X2. Deleting a stored key succeeds once: the rows with that key are
    removed and the others stay, in order; after it a [GET] and a second
    [DELETE] of the key are answered 404 "Product not found", and the
    lookups of every other key are as before. *)
Theorem X2_delete_then_not_found (db : Table) (i : Z) (p : Product.t) :
  Session.first_by_id i db = Some p ->
  let db' := snd (app (DELETE_product i) db) in
  fst (app (DELETE_product i) db)
  = Ok_message "Product deleted successfully"
  /\ db' = filter (fun r => negb (Session.has_id i r)) db
  /\ app (GET_product i) db' = (HTTPException 404 "Product not found", db')
  /\ app (DELETE_product i) db'
     = (HTTPException 404 "Product not found", db')
  /\ (forall j, j <> i ->
        Session.first_by_id j db' = Session.first_by_id j db).
Proof.
  intros F db'.
  assert (db' = filter (fun r => negb (Session.has_id i r)) db) as E
    by apply delete_product_table.
  split; [simpl; unfold delete_product;
          rewrite (first_found i db p F); reflexivity|].
  split; [exact E|].
  assert (Session.first i db' = inr None) as G.
  { pose proof (first_by_id_Some _ _ _ F) as [_ I].
    apply has_id_spec in I. destruct I as [_ R].
    unfold Session.first. rewrite R, E, first_by_id_deleted. reflexivity. }
  simpl. unfold get_product, delete_product. rewrite G.
  split; [reflexivity|]. split; [reflexivity|].
  intros j J. rewrite E. apply find_filter. intros r Ir.
  rewrite (has_id_other j i r Ir) by congruence. reflexivity.
Qed.



(** X5. An update never touches a key: whatever the body, the keys of the
    table, row by row, are after a [PUT] what they were before, so no row
    is added or removed either. *)
Theorem X5_update_keeps_keys (db : Table) (i : Z) (body : Body) :
  map Product.id (snd (app (PUT_product i body) db)) = map Product.id db.
Proof.
  simpl. destruct (ProductUpdate.validate body) as [product|];
    [|reflexivity].
  unfold update_product.
  destruct (Session.first i db) as [e|[p|]]; try reflexivity.
  rewrite setattr_loop.
  destruct (Session.commit_dirty (patched product p) db)
    as [[| |]|db'] eqn:E; try reflexivity.
  simpl. apply commit_dirty_inv in E. destruct E as [_ [_ ->]].
  unfold replaced. rewrite map_map. apply map_ext. intros r.
  destruct (Session.same_id (patched product p) r) eqn:S; [|reflexivity].
  apply same_id_ids, S.
Qed.


End Handlers.

(** * Further properties of the schemas *)

Lemma strip_eqb_blank (s : string) : String.eqb (strip s) "" = blank s.
Proof.
  destruct (blank s) eqn:B.
  - apply String.eqb_eq, strip_empty, B.
  - apply String.eqb_neq. intros E. apply strip_empty in E. congruence.
Qed.

Lemma not_blank_length (s : string) :
  blank s = false -> (1 <=? String.length s)%nat = true.
Proof. destruct s; [discriminate | reflexivity]. Qed.

(** The text fields: the validator of either schema before [str] or
    [Optional[str]], with [min_length] 0 or 1. *)
Section TextFields.
Variable validator : json -> option json.
Hypothesis validator_eq :
  forall v, validator v = ProductCreate.empty_string_not_allowed v.

Lemma text_schema_spec (v : json) (n : string) :
  Pydantic.before validator (Pydantic.str_schema 1) v = Some n <->
  v = JStr n /\ blank n = false.
Proof.
  unfold Pydantic.before, bind. rewrite validator_eq. split.
  - destruct v;
      cbn [ProductCreate.empty_string_not_allowed Pydantic.str_schema];
      try discriminate.
    rewrite strip_eqb_blank. destruct (blank s) eqn:B; [discriminate|].
    cbn [Pydantic.str_schema]. rewrite (not_blank_length s B).
    intros E. injection E as <-.
    split; [reflexivity | exact B].
  - intros [-> B].
    cbn [ProductCreate.empty_string_not_allowed Pydantic.str_schema].
    rewrite strip_eqb_blank, B. cbn [Pydantic.str_schema].
    rewrite (not_blank_length n B). reflexivity.
Qed.

Lemma nullable_text_schema_spec (m : nat) (v : json) (d : option string) :
  (m <= 1)%nat ->
  Pydantic.before validator (Pydantic.nullable (Pydantic.str_schema m)) v
  = Some d <->
  match v with
  | JNull => d = None
  | JStr s => blank s = false /\ d = Some s
  | _ => False
  end.
Proof.
  intros M. unfold Pydantic.before, bind. rewrite validator_eq.
  assert (forall s, blank s = false ->
            (m <=? String.length s)%nat = true) as L.
  { intros s B. apply Nat.leb_le. pose proof (not_blank_length s B) as G.
    apply Nat.leb_le in G. lia. }
  destruct v;
    cbn [ProductCreate.empty_string_not_allowed Pydantic.nullable
         Pydantic.str_schema option_map];
    try (split; [discriminate | contradiction]).
  - split; [intros E; injection E as <-; reflexivity | intros ->; reflexivity].
  - rewrite strip_eqb_blank. destruct (blank s) eqn:B.
    + split; [discriminate | intros [X _]; discriminate].
    + cbn [Pydantic.nullable Pydantic.str_schema]. rewrite (L s B).
      cbn [option_map].
      split; [intros E; injection E as <-; auto | intros [_ ->]; reflexivity].
Qed.

Lemma tracked_text_spec (m : nat) (raw : option json)
    (f : option (option string)) :
  (m <= 1)%nat ->
  Pydantic.tracked
    (Pydantic.before validator (Pydantic.nullable (Pydantic.str_schema m)))
    raw = Some f <->
  tracked_text raw f.
Proof.
  intros M. destruct raw as [v|]; simpl.
  - destruct (Pydantic.before validator _ v) as [d|] eqn:E; simpl.
    + apply (nullable_text_schema_spec m v d M) in E.
      destruct v; try contradiction.
      * subst d. split; [intros X; injection X as <-; reflexivity
                        | intros ->; reflexivity].
      * destruct E as [B ->].
        split; [intros X; injection X as <-; auto | intros [_ ->]; reflexivity].
    + split; [discriminate|]. intros T.
      assert (exists d, match v with
                        | JNull => d = None
                        | JStr s => blank s = false /\ d = Some s
                        | _ => False
                        end) as [d D].
      { destruct v; try contradiction.
        - exists None. reflexivity.
        - destruct T as [B _]. exists (Some s). auto. }
      apply (nullable_text_schema_spec m v d M) in D. congruence.
  - split; [intros X; injection X as <-; reflexivity | intros ->; reflexivity].
Qed.

Lemma optional_text_spec (raw : option json) (d : option string) :
  Pydantic.defaulted None
    (Pydantic.before validator (Pydantic.nullable (Pydantic.str_schema 0)))
    raw = Some d <->
  optional_text raw d.
Proof.
  destruct raw as [v|]; simpl.
  - rewrite (nullable_text_schema_spec 0 v d) by lia.
    destruct v; reflexivity.
  - split; [intros X; injection X as <-; reflexivity | intros ->; reflexivity].
Qed.

End TextFields.

Section NumberFields.
Context {A : Type}.
Variables (convert : json -> option A) (ok : A -> bool).

Lemma bounded_spec (v : json) (x : A) :
  bounded convert ok v = Some x <-> convert v = Some x /\ ok x = true.
Proof.
  unfold bounded. destruct (convert v) as [y|]; simpl.
  - destruct (ok y) eqn:K; split.
    + intros E. injection E as <-. auto.
    + intros [E _]. exact E.
    + discriminate.
    + intros [E G]. injection E as <-. congruence.
  - split; [discriminate | intros [E _]; discriminate].
Qed.

Lemma tracked_number_spec (raw : option json) (f : option (option A)) :
  Pydantic.tracked (Pydantic.nullable (bounded convert ok)) raw = Some f <->
  tracked_number convert ok raw f.
Proof.
  destruct raw as [v|]; simpl.
  - assert (v <> JNull ->
            (option_map Some (option_map Some (bounded convert ok v))
             = Some f <->
             exists x, convert v = Some x /\ ok x = true
                       /\ f = Some (Some x))) as G.
    { intros _. destruct (bounded convert ok v) as [x|] eqn:E; simpl.
      - apply bounded_spec in E. destruct E as [E K]. split.
        + intros X. injection X as <-. exists x. auto.
        + intros [y [Ey [_ ->]]]. congruence.
      - split; [discriminate|]. intros [y [Ey [Ky _]]].
        assert (bounded convert ok v = Some y)
          by (apply bounded_spec; auto).
        congruence. }
    destruct v; try (apply G; discriminate).
    simpl. split; [intros X; injection X as <-; reflexivity
                  | intros ->; reflexivity].
  - split; [intros X; injection X as <-; reflexivity | intros ->; reflexivity].
Qed.

End NumberFields.

Lemma required_spec {A : Type} (schema : json -> option A)
    (raw : option json) (x : A) :
  Pydantic.required schema raw = Some x <->
  exists v, raw = Some v /\ schema v = Some x.
Proof.
  destruct raw as [v|]; simpl; split.
  - intros E. exists v. auto.
  - intros [w [E S]]. injection E as ->. exact S.
  - discriminate.
  - intros [w [E _]]. discriminate.
Qed.

Section SchemaFields.
Context `{LaxConversion}.

Lemma create_validate_fields (body : Body) (product : ProductCreate.t) :
  ProductCreate.validate body = Some product <->
  Pydantic.required
    (Pydantic.before ProductCreate.empty_string_not_allowed
       (Pydantic.str_schema 1))
    (dict_get "name" body) = Some (ProductCreate.name product)
  /\ Pydantic.required (Pydantic.float_schema 0) (dict_get "price" body)
     = Some (ProductCreate.price product)
  /\ Pydantic.required (Pydantic.int_schema 0) (dict_get "quantity" body)
     = Some (ProductCreate.quantity product)
  /\ Pydantic.defaulted None
       (Pydantic.before ProductCreate.empty_string_not_allowed
          (Pydantic.nullable (Pydantic.str_schema 0)))
       (dict_get "description" body)
     = Some (ProductCreate.description product)
  /\ Pydantic.defaulted None
       (Pydantic.before ProductCreate.empty_string_not_allowed
          (Pydantic.nullable (Pydantic.str_schema 0)))
       (dict_get "category" body)
     = Some (ProductCreate.category product).
Proof.
  unfold ProductCreate.validate. split.
  - intros E.
    apply bind_Some in E. destruct E as [n [Hn E]].
    apply bind_Some in E. destruct E as [p [Hp E]].
    apply bind_Some in E. destruct E as [q [Hq E]].
    apply bind_Some in E. destruct E as [d [Hd E]].
    apply bind_Some in E. destruct E as [c [Hc E]].
    injection E as <-. simpl. auto.
  - intros [-> [-> [-> [-> ->]]]]. simpl. destruct product; reflexivity.
Qed.

Lemma update_validate_fields (body : Body) (product : ProductUpdate.t) :
  ProductUpdate.validate body = Some product <->
  Pydantic.tracked
    (Pydantic.before ProductUpdate.empty_string_not_allowed_update
       (Pydantic.nullable (Pydantic.str_schema 1)))
    (dict_get "name" body) = Some (ProductUpdate.name product)
  /\ Pydantic.tracked (Pydantic.nullable (Pydantic.float_schema 0))
       (dict_get "price" body) = Some (ProductUpdate.price product)
  /\ Pydantic.tracked (Pydantic.nullable (Pydantic.int_schema 0))
       (dict_get "quantity" body) = Some (ProductUpdate.quantity product)
  /\ Pydantic.tracked
       (Pydantic.before ProductUpdate.empty_string_not_allowed_update
          (Pydantic.nullable (Pydantic.str_schema 0)))
       (dict_get "description" body)
     = Some (ProductUpdate.description product)
  /\ Pydantic.tracked
       (Pydantic.before ProductUpdate.empty_string_not_allowed_update
          (Pydantic.nullable (Pydantic.str_schema 0)))
       (dict_get "category" body)
     = Some (ProductUpdate.category product).
Proof.
  unfold ProductUpdate.validate. split.
  - intros E.
    apply bind_Some in E. destruct E as [n [Hn E]].
    apply bind_Some in E. destruct E as [p [Hp E]].
    apply bind_Some in E. destruct E as [q [Hq E]].
    apply bind_Some in E. destruct E as [d [Hd E]].
    apply bind_Some in E. destruct E as [c [Hc E]].
    injection E as <-. simpl. auto.
  - intros [-> [-> [-> [-> ->]]]]. simpl. destruct product; reflexivity.
Qed.

Lemma float_field_spec (raw : option json) (x : float) :
  Pydantic.required (Pydantic.float_schema 0) raw = Some x <->
  (exists v, raw = Some v /\ lax_float v = Some x)
  /\ PrimFloat.ltb 0 x = true.
Proof.
  rewrite required_spec.
  change (Pydantic.float_schema 0) with (bounded lax_float (PrimFloat.ltb 0)).
  split.
  - intros [v [E S]]. apply bounded_spec in S. destruct S. eauto.
  - intros [[v [E L]] G]. exists v. split; [exact E|].
    apply bounded_spec. auto.
Qed.

Lemma int_field_spec (raw : option json) (n : Z) :
  Pydantic.required (Pydantic.int_schema 0) raw = Some n <->
  (exists v, raw = Some v /\ lax_int v = Some n) /\ (0 <= n)%Z.
Proof.
  rewrite required_spec.
  change (Pydantic.int_schema 0) with (bounded lax_int (Z.leb 0)).
  split.
  - intros [v [E S]]. apply bounded_spec in S. destruct S as [L G].
    apply Z.leb_le in G. eauto.
  - intros [[v [E L]] G]. exists v. split; [exact E|].
    apply bounded_spec. split; [exact L | apply Z.leb_le, G].
Qed.

Lemma name_field_spec (raw : option json) (n : string) :
  Pydantic.required
    (Pydantic.before ProductCreate.empty_string_not_allowed
       (Pydantic.str_schema 1)) raw = Some n <->
  raw = Some (JStr n) /\ blank n = false.
Proof.
  rewrite required_spec. split.
  - intros [v [E S]].
    apply (text_schema_spec _ (fun _ => eq_refl)) in S.
    destruct S as [-> B]. auto.
  - intros [E B]. exists (JStr n). split; [exact E|].
    apply (text_schema_spec _ (fun _ => eq_refl)). auto.
Qed.

(** X7. What a create accepts. A body validates to [product] exactly when
    its [name] is a string with a character that is not whitespace (it is
    kept as given, not stripped), its [price] converts to a float [> 0],
    its [quantity] converts to an integer [>= 0], and [description] and
    [category] are each absent, [null] or a string that is not blank. In
    particular [min_length=1] rejects nothing that the validator lets
    through. *)
Theorem X7_create_accepts (body : Body) (product : ProductCreate.t) :
  ProductCreate.validate body = Some product <->
  dict_get "name" body = Some (JStr (ProductCreate.name product))
  /\ blank (ProductCreate.name product) = false
  /\ (exists v, dict_get "price" body = Some v
                /\ lax_float v = Some (ProductCreate.price product))
  /\ PrimFloat.ltb 0 (ProductCreate.price product) = true
  /\ (exists v, dict_get "quantity" body = Some v
                /\ lax_int v = Some (ProductCreate.quantity product))
  /\ (0 <= ProductCreate.quantity product)%Z
  /\ optional_text (dict_get "description" body)
       (ProductCreate.description product)
  /\ optional_text (dict_get "category" body)
       (ProductCreate.category product).
Proof.
  rewrite create_validate_fields, name_field_spec, float_field_spec,
    int_field_spec.
  rewrite !(optional_text_spec _ (fun _ => eq_refl)). tauto.
Qed.

(** X8. What an update accepts. A body validates to [product] exactly when
    each of [name], [description] and [category] is absent (the field is
    unset), [null] (set to [None]) or a string that is not blank (set to
    it), and each of [price] and [quantity] is absent, [null] or a value
    that converts to a float [> 0], to an integer [>= 0]. Keys other than
    these five play no part. *)
Theorem X8_update_accepts (body : Body) (product : ProductUpdate.t) :
  ProductUpdate.validate body = Some product <->
  tracked_text (dict_get "name" body) (ProductUpdate.name product)
  /\ tracked_number lax_float (PrimFloat.ltb 0) (dict_get "price" body)
       (ProductUpdate.price product)
  /\ tracked_number lax_int (Z.leb 0) (dict_get "quantity" body)
       (ProductUpdate.quantity product)
  /\ tracked_text (dict_get "description" body)
       (ProductUpdate.description product)
  /\ tracked_text (dict_get "category" body)
       (ProductUpdate.category product).
Proof.
  rewrite update_validate_fields.
  rewrite (tracked_text_spec _ (fun _ => eq_refl) 1) by lia.
  rewrite !(tracked_text_spec _ (fun _ => eq_refl) 0) by lia.
  change (Pydantic.float_schema 0) with (bounded lax_float (PrimFloat.ltb 0)).
  change (Pydantic.int_schema 0) with (bounded lax_int (Z.leb 0)).
  rewrite !tracked_number_spec. tauto.
Qed.

(** X9. A create that lacks [name], [price] or [quantity], or whose [name]
    is not a JSON string, fails validation: the answer is the validation
    error and the table is the one before the request. *)
Theorem X9_create_missing_field (db : Table) (body : Body) :
  dict_get "name" body = None
  \/ (exists v, dict_get "name" body = Some v /\ forall s, v <> JStr s)
  \/ dict_get "price" body = None
  \/ dict_get "quantity" body = None ->
  app (POST_products body) db = (RequestValidationError, db).
Proof.
  intros M. simpl.
  destruct (ProductCreate.validate body) as [product|] eqn:V; [|reflexivity].
  apply create_validate_fields in V.
  destruct V as [Vn [Vp [Vq _]]].
  apply name_field_spec in Vn. destruct Vn as [Vn _].
  apply float_field_spec in Vp. destruct Vp as [[vp [Vp _]] _].
  apply int_field_spec in Vq. destruct Vq as [[vq [Vq _]] _].
  destruct M as [M|[[v [M S]]|[M|M]]]; congruence.
Qed.

End SchemaFields.

(** * Further invariants of the table *)

Lemma consistent_ids (db : Table) :
  consistent db = true -> NoDup (map Product.id db).
Proof.
  intros C. apply consistent_parts in C. destruct C as [K [D _]].
  induction db as [|p db IH]; simpl; [constructor|].
  simpl in K, D.
  apply andb_prop in K. destruct K as [Kp K].
  apply andb_prop in D. destruct D as [F D].
  constructor; [|apply IH; assumption].
  intros I. apply in_map_iff in I. destruct I as [q [E Hq]].
  rewrite forallb_forall in F. apply F in Hq.
  apply stored_parts in Kp. destruct Kp as [Kp _].
  unfold keyed in Kp. unfold Session.same_id, Session.has_id in Hq.
  rewrite E in Hq. destruct (Product.id p) as [i|]; [|discriminate].
  rewrite Z.eqb_refl, Kp in Hq. discriminate.
Qed.

Lemma optional_text_ok (raw : option json) (d : option string) :
  optional_text raw d -> text_ok d = true.
Proof.
  destruct raw as [[| | | |s| |]|]; simpl; try contradiction;
    try (intros ->; reflexivity).
  intros [B ->]. simpl. rewrite B. reflexivity.
Qed.

Lemma tracked_text_ok (raw : option json) (f : option (option string))
    (old : option string) :
  tracked_text raw f -> text_ok old = true -> text_ok (patch f old) = true.
Proof.
  destruct raw as [[| | | |s| |]|]; simpl; try contradiction;
    try (intros -> O; simpl; auto).
  intros [B ->] _. simpl. rewrite B. reflexivity.
Qed.

Section MoreInvariants.
Context `{LaxConversion}.

Lemma create_texts_ok (body : Body) (product : ProductCreate.t) (i : Z) :
  ProductCreate.validate body = Some product ->
  texts_ok (Product.set_id (Some i) (Product_of product)) = true.
Proof.
  intros V. apply create_validate_fields in V.
  destruct V as [Vn [_ [_ [Vd Vc]]]].
  apply name_field_spec in Vn. destruct Vn as [_ B].
  apply (optional_text_spec _ (fun _ => eq_refl)) in Vd, Vc.
  apply optional_text_ok in Vd, Vc.
  unfold texts_ok. simpl. rewrite B, Vd, Vc. reflexivity.
Qed.

Lemma update_texts_ok (body : Body) (product : ProductUpdate.t)
    (p : Product.t) :
  ProductUpdate.validate body = Some product ->
  texts_ok p = true -> texts_ok (patched product p) = true.
Proof.
  intros V T. apply update_validate_fields in V.
  destruct V as [Vn [_ [_ [Vd Vc]]]].
  apply (tracked_text_spec _ (fun _ => eq_refl) 1) in Vn; [|lia].
  apply (tracked_text_spec _ (fun _ => eq_refl) 0) in Vd, Vc; try lia.
  unfold texts_ok in *. simpl.
  apply andb_prop in T. destruct T as [T Tc].
  apply andb_prop in T. destruct T as [Tn Td].
  rewrite (tracked_text_ok _ _ _ Vn Tn), (tracked_text_ok _ _ _ Vd Td),
    (tracked_text_ok _ _ _ Vc Tc). reflexivity.
Qed.

Lemma app_texts_ok (r : Request) (db : Table) :
  forallb texts_ok db = true -> forallb texts_ok (snd (app r db)) = true.
Proof.
  intros T. destruct r as [|body|i|i body|i|[t|]]; simpl; try exact T.
  - destruct (ProductCreate.validate body) as [product|] eqn:V; [|exact T].
    rewrite create_product_result.
    destruct (Session.in_int64 _); [|exact T].
    destruct (existsb _ db); [exact T|].
    destruct (has_room db); [|exact T]. simpl.
    rewrite forallb_app, T. simpl.
    rewrite (create_texts_ok body product _ V). reflexivity.
  - unfold get_product. destruct (Session.first i db) as [e|[p|]]; exact T.
  - destruct (ProductUpdate.validate body) as [product|] eqn:V; [|exact T].
    unfold update_product, Session.first.
    destruct (Session.in_int64 i); [|exact T].
    destruct (Session.first_by_id i db) as [p|] eqn:F; [|exact T].
    rewrite setattr_loop.
    destruct (Session.commit_dirty (patched product p) db)
      as [[| |]|db'] eqn:E; try exact T.
    simpl. apply commit_dirty_inv in E. destruct E as [_ [_ ->]].
    apply first_by_id_Some in F. destruct F as [Hp _].
    rewrite forallb_forall in T.
    unfold replaced. apply forallb_forall. intros r Hr.
    apply in_map_iff in Hr. destruct Hr as [q [<- Hq]].
    destruct (Session.same_id _ q); [|apply T, Hq].
    apply (update_texts_ok body product p V), T, Hp.
  - rewrite delete_product_table.
    rewrite forallb_forall in *. intros r Hr.
    apply filter_In in Hr. apply T, Hr.
  - destruct (PrimFloat.leb 0 t); exact T.
Qed.

Lemma run_texts_ok (rs : list Request) (db : Table) :
  forallb texts_ok db = true -> forallb texts_ok (run rs db) = true.
Proof.
  revert db. induction rs as [|r rs IH]; intros db T; simpl; [exact T|].
  apply IH, app_texts_ok, T.
Qed.

Lemma run_good_rows (rs : list Request) (p : Product.t) :
  In p (run rs []) -> good_row p = true.
Proof.
  intros Hp.
  assert (sound (run rs []) = true) as S by (apply run_sound; reflexivity).
  apply sound_parts in S. destruct S as [C R].
  destruct (consistent_row _ p C Hp) as [K N].
  rewrite forallb_forall in R.
  assert (forallb texts_ok (run rs []) = true) as T
    by (apply run_texts_ok; reflexivity).
  rewrite forallb_forall in T.
  unfold good_row. rewrite K, N, (R p Hp), (T p Hp). reflexivity.
Qed.

(** X10. Keys. In every table that a sequence of requests leaves, every
    row has a key and no two rows have the same key, so a lookup by key
    finds at most one row. *)
Theorem X10_keys_stay_unique (rs : list Request) :
  NoDup (map Product.id (run rs []))
  /\ (forall p, In p (run rs []) -> exists i, Product.id p = Some i)
  /\ (forall p q, In p (run rs []) -> In q (run rs []) ->
        Product.id p = Product.id q -> p = q).
Proof.
  pose proof (run_consistent rs) as C.
  assert (forall p, In p (run rs []) -> exists i, Product.id p = Some i)
    as K.
  { intros p Hp. destruct (consistent_row _ p C Hp) as [Kp _].
    unfold keyed in Kp. destruct (Product.id p) as [i|]; [|discriminate].
    exists i. reflexivity. }
  split; [apply consistent_ids, C|]. split; [exact K|].
  intros p q Hp Hq E.
  apply consistent_parts in C. destruct C as [_ [D _]].
  apply (@distinct_In Session.same_id same_id_sym (run rs []) p q);
    try assumption.
  destruct (consistent_row _ q (run_consistent rs) Hq) as [Kq _].
  unfold keyed in Kq. unfold Session.same_id, Session.has_id.
  rewrite E. destruct (Product.id q) as [i|]; [|discriminate].
  rewrite Kq. apply Z.eqb_refl.
Qed.

(** X11. Texts. In every table that a sequence of requests leaves, the
    name of every row has a character that is not whitespace, and its
    description and its category are each [None] or such a string. *)
Theorem X11_stored_texts_not_blank (rs : list Request) (p : Product.t) :
  In p (run rs []) ->
  (exists n, Product.name p = Some n /\ strip n <> "")
  /\ (forall d, Product.description p = Some d -> strip d <> "")
  /\ (forall c, Product.category p = Some c -> strip c <> "").
Proof.
  intros Hp. pose proof (run_good_rows rs p Hp) as G.
  unfold good_row in G.
  apply andb_prop in G. destruct G as [G T].
  apply andb_prop in G. destruct G as [G _].
  apply andb_prop in G. destruct G as [_ N].
  unfold texts_ok in T.
  apply andb_prop in T. destruct T as [T Tc].
  apply andb_prop in T. destruct T as [Tn Td].
  assert (forall o s, text_ok o = true -> o = Some s -> strip s <> "") as B.
  { intros o s O -> E. apply strip_empty in E. simpl in O.
    rewrite E in O. discriminate. }
  split; [|split].
  - unfold Session.not_null in N.
    destruct (Product.name p) as [n|] eqn:E; [|discriminate].
    exists n. split; [reflexivity | apply (B _ n Tn eq_refl)].
  - intros d E. apply (B _ d Td E).
  - intros c E. apply (B _ c Tc E).
Qed.

(** A good row passes the response schema, values unchanged, when the
    conversion takes a float as a float and an integer as an integer. *)
Lemma good_row_validates (p : Product.t) :
  (forall x, lax_float (JFloat x) = Some x) ->
  (forall n, lax_int (JInt n) = Some n) ->
  good_row p = true ->
  exists resp, ProductResponse.validate p = Some resp /\ carries p resp.
Proof.
  intros Lf Li G. unfold good_row in G.
  apply andb_prop in G. destruct G as [G T].
  apply andb_prop in G. destruct G as [G R].
  apply andb_prop in G. destruct G as [K N].
  apply in_range_spec in R. destruct R as [x [q [Ex [Eq [Gx Gq]]]]].
  unfold keyed in K. destruct (Product.id p) as [i|] eqn:Ei; [|discriminate].
  unfold Session.not_null in N.
  destruct (Product.name p) as [n|] eqn:En; [|discriminate].
  unfold texts_ok in T. rewrite En in T.
  apply andb_prop in T. destruct T as [T Tc].
  apply andb_prop in T. destruct T as [Tn Td].
  simpl in Tn. apply negb_true_iff in Tn.
  exists (ProductResponse.mk i n x q (Product.description p)
            (Product.category p)).
  split; [|unfold carries; simpl; repeat split; auto].
  unfold ProductResponse.validate.
  assert (ProductCreate.validate (ProductResponse.attributes p)
          = Some (ProductCreate.mk n x q (Product.description p)
                    (Product.category p))) as ->.
  { apply create_validate_fields. simpl.
    unfold ProductResponse.attributes. simpl.
    rewrite En, Ex, Eq. simpl.
    split; [apply (text_schema_spec _ (fun _ => eq_refl)); auto|].
    split; [change (Pydantic.float_schema 0)
              with (bounded lax_float (PrimFloat.ltb 0));
            apply bounded_spec; auto|].
    split; [change (Pydantic.int_schema 0) with (bounded lax_int (Z.leb 0));
            apply bounded_spec; split; [apply Li | apply Z.leb_le, Gq]|].
    split; apply (nullable_text_schema_spec _ (fun _ => eq_refl) 0);
      try lia.
    - destruct (Product.description p) as [d|]; simpl; [|reflexivity].
      simpl in Td. apply negb_true_iff in Td. auto.
    - destruct (Product.category p) as [c|]; simpl; [|reflexivity].
      simpl in Tc. apply negb_true_iff in Tc. auto. }
  simpl. rewrite Ei. simpl. rewrite Li. reflexivity.
Qed.

End MoreInvariants.

(** * Responses, listings and the helper of the tests *)

Lemma filter_twice {A : Type} (f g : A -> bool) (l : list A) :
  filter f (filter g l) = filter (fun x => g x && f x) l.
Proof.
  induction l as [|a l IH]; simpl; [reflexivity|].
  destruct (g a); simpl; [|exact IH].
  destruct (f a); simpl; rewrite IH; reflexivity.
Qed.

(** [0 < x] gives [0 <= x] on floats. *)
Lemma float_ltb_leb (x y : float) :
  PrimFloat.ltb x y = true -> PrimFloat.leb x y = true.
Proof.
  rewrite FloatAxioms.ltb_spec, FloatAxioms.leb_spec.
  unfold SpecFloat.SFltb, SpecFloat.SFleb.
  destruct (SpecFloat.SFcompare _ _) as [[| |]|]; auto; discriminate.
Qed.

Section Responses.
Context `{LaxConversion}.

Lemma run_snoc (rs : list Request) (r : Request) (db : Table) :
  run (rs ++ [r]) db = snd (app r (run rs db)).
Proof.
  revert db. induction rs as [|r' rs IH]; intros db; simpl; [reflexivity|].
  apply IH.
Qed.

(** The rows of a response are rows of the table, before the request or
    after it. *)
Lemma app_returns_rows (r : Request) (db : Table) :
  match fst (app r db) with
  | Ok_product p => In p db \/ In p (snd (app r db))
  | Ok_products l => forall p, In p l -> In p db
  | _ => True
  end.
Proof.
  destruct r as [|body|i|i body|i|[t|]]; unfold app.
  - exact I.
  - destruct (ProductCreate.validate body) as [product|]; [|exact I].
    rewrite create_product_result.
    destruct (Session.in_int64 _); simpl; [|exact I].
    destruct (existsb _ db); simpl; [exact I|].
    destruct (has_room db); simpl; [|exact I].
    right. apply in_or_app. right. left. reflexivity.
  - unfold get_product, Session.first.
    destruct (Session.in_int64 i); simpl; [|exact I].
    destruct (Session.first_by_id i db) as [p|] eqn:F; simpl; [|exact I].
    left. apply (first_by_id_Some _ _ _ F).
  - destruct (ProductUpdate.validate body) as [product|]; [|exact I].
    unfold update_product, Session.first.
    destruct (Session.in_int64 i); simpl; [|exact I].
    destruct (Session.first_by_id i db) as [p|] eqn:F; simpl; [|exact I].
    rewrite setattr_loop.
    destruct (Session.commit_dirty (patched product p) db)
      as [[| |]|db'] eqn:E; simpl; try exact I.
    right. apply commit_dirty_inv in E. destruct E as [_ [_ ->]].
    apply (first_by_id_Some i).
    apply (first_by_id_replaced_row i (patched product p) p db eq_refl F).
  - unfold delete_product.
    destruct (Session.first i db) as [e|[p|]]; simpl; exact I.
  - destruct (PrimFloat.leb 0 t); [|exact I].
    rewrite list_products_filter. simpl.
    intros p Hp. apply filter_In in Hp. apply Hp.
  - rewrite list_products_all. simpl. auto.
Qed.

(** X12. The response schema. When the conversion takes a float as a
    float and an integer as an integer, every row that a handler returns,
    after any sequence of requests, passes [ProductResponse] with its
    values unchanged: encoding a response never fails. *)
Theorem X12_responses_pass_schema (rs : list Request) (r : Request) :
  (forall x, lax_float (JFloat x) = Some x) ->
  (forall n, lax_int (JInt n) = Some n) ->
  match fst (app r (run rs [])) with
  | Ok_product p =>
      exists resp, ProductResponse.validate p = Some resp /\ carries p resp
  | Ok_products l =>
      forall p, In p l ->
        exists resp, ProductResponse.validate p = Some resp /\ carries p resp
  | _ => True
  end.
Proof.
  intros Lf Li. pose proof (app_returns_rows r (run rs [])) as R.
  destruct (fst (app r (run rs []))) as [p|l| | | |]; try exact I.
  - apply (good_row_validates p Lf Li).
    destruct R as [R|R]; [apply (run_good_rows rs p R)|].
    rewrite <- run_snoc in R. apply (run_good_rows _ p R).
  - intros p Hp. apply (good_row_validates p Lf Li).
    apply (run_good_rows rs p), R, Hp.
Qed.

Lemma delete_step_table (db : Table) (product : Product.t) :
  match Product.id product with
  | Some product_id => snd (app (DELETE_product product_id) db)
  | None => db
  end
  = filter (fun r => negb (Session.same_id r product)) db.
Proof.
  unfold Session.same_id. destruct (Product.id product) as [i|].
  - simpl. apply delete_product_table.
  - symmetry. apply forallb_filter_id. apply forallb_forall. reflexivity.
Qed.

Lemma delete_each_table (products : list Product.t) (db : Table) :
  fold_left
    (fun db product =>
       match Product.id product with
       | Some product_id => snd (app (DELETE_product product_id) db)
       | None => db
       end)
    products db
  = filter (fun r => negb (existsb (Session.same_id r) products)) db.
Proof.
  revert db. induction products as [|p l IH]; intros db.
  - simpl. symmetry. apply forallb_filter_id. apply forallb_forall.
    reflexivity.
  - cbn [fold_left]. rewrite delete_step_table, IH, filter_twice.
    apply filter_ext. intros r. cbn [existsb].
    destruct (Session.same_id r p); reflexivity.
Qed.

(** X13. [cleanup_products] removes every row that has a key and keeps
    the order of the others; it empties every table whose rows all have a
    key, and so every table that a sequence of requests leaves. *)
Theorem X13_cleanup_products_empties (db : Table) :
  cleanup_products db = filter (fun r => negb (keyed r)) db
  /\ ((forall r, In r db -> keyed r = true) -> cleanup_products db = [])
  /\ (forall rs, cleanup_products (run rs []) = []).
Proof.
  assert (forall t, cleanup_products t = filter (fun r => negb (keyed r)) t)
    as E.
  { intros t. unfold cleanup_products. unfold app at 1.
    rewrite list_products_all. cbn [fst]. rewrite delete_each_table.
    apply filter_ext_in. intros r Hr. f_equal. unfold keyed.
    destruct (Product.id r) as [i|] eqn:Ei.
    - destruct (Session.in_int64 i) eqn:R.
      + apply existsb_exists. exists r. split; [exact Hr|].
        unfold Session.same_id, Session.has_id. rewrite Ei, R.
        apply Z.eqb_refl.
      + apply not_true_is_false. intros X. apply existsb_exists in X.
        destruct X as [q [_ S]]. unfold Session.same_id in S.
        destruct (Product.id q) as [j|]; [|discriminate].
        apply has_id_spec in S. destruct S as [S R'].
        rewrite Ei in S. injection S as ->. congruence.
    - apply not_true_is_false. intros X. apply existsb_exists in X.
      destruct X as [q [_ S]]. unfold Session.same_id in S.
      destruct (Product.id q); [|discriminate].
      unfold Session.has_id in S. rewrite Ei in S. discriminate. }
  assert (forall t, (forall r, In r t -> keyed r = true) ->
            cleanup_products t = []) as K.
  { intros t Kt. rewrite E. apply filter_nothing. intros r Hr.
    rewrite (Kt r Hr). reflexivity. }
  split; [apply E|]. split; [apply K|].
  intros rs. apply K. intros r Hr.
  apply (consistent_row _ r (run_consistent rs) Hr).
Qed.


(** X15. The threshold 0 filters nothing: after any sequence of requests,
    [GET /products/?price_gte=0] returns every stored row, as the listing
    without a threshold does. *)
Theorem X15_threshold_zero_lists_all (rs : list Request) :
  app (GET_products (Some 0%float)) (run rs [])
  = app (GET_products None) (run rs []).
Proof.
  unfold app. change (PrimFloat.leb 0 0) with true. cbn iota.
  rewrite list_products_filter, list_products_all.
  rewrite forallb_filter_id; [reflexivity|].
  apply forallb_forall. intros p Hp.
  pose proof (run_good_rows rs p Hp) as G. unfold good_row in G.
  apply andb_prop in G. destruct G as [G _].
  apply andb_prop in G. destruct G as [_ R].
  apply in_range_spec in R. destruct R as [x [n [Ex [_ [Gx _]]]]].
  unfold Session.price_ge. rewrite Ex. apply float_ltb_leb, Gx.
Qed.

End Responses.

(** * Updates sent again *)

Lemma patched_twice (product : ProductUpdate.t) (p : Product.t) :
  patched product (patched product p) = patched product p.
Proof.
  destruct product as [[n|] [x|] [q|] [d|] [c|]]; reflexivity.
Qed.

Section Again.
Context `{LaxConversion}.


(** X17. [PUT] is idempotent: on a consistent table, the same update sent
    a second time gets the answer of the first and leaves the table as the
    first left it, whether the first succeeded or failed. *)
Theorem X17_update_twice (db : Table) (product_id : Z) (body : Body) :
  consistent db = true ->
  let db' := snd (app (PUT_product product_id body) db) in
  app (PUT_product product_id body) db'
  = (fst (app (PUT_product product_id body) db), db').
Proof.
  intros C db'. subst db'. simpl.
  destruct (ProductUpdate.validate body) as [product|]; [|reflexivity].
  destruct (update_product product_id product db) as [resp t] eqn:R.
  cbn [fst snd]. unfold update_product in R.
  destruct (Session.first product_id db) as [e|[p|]] eqn:F0.
  1, 3: injection R as <- <-; unfold update_product; rewrite F0;
    reflexivity.
  assert (Session.first_by_id product_id db = Some p) as F.
  { unfold Session.first in F0.
    destruct (Session.in_int64 product_id); [congruence | discriminate]. }
  rewrite setattr_loop in R.
  destruct (Session.commit_dirty (patched product p) db) as [e|db'] eqn:E.
  { destruct e; injection R as <- <-; unfold update_product;
      rewrite F0, setattr_loop, E; reflexivity. }
  injection R as <- <-.
  pose proof (commit_dirty_bindable _ _ _ E) as B.
  apply commit_dirty_inv in E. destruct E as [N [U ->]].
  pose proof (first_by_id_Some _ _ _ F) as [Hp I].
  assert (consistent (replaced (patched product p) db) = true) as C'
    by (apply (replaced_consistent (patched product p) p db); auto).
  assert (Session.first_by_id product_id (replaced (patched product p) db)
          = Some (patched product p)) as F'
    by apply (first_by_id_replaced_row product_id (patched product p) p db
                eq_refl F).
  unfold update_product.
  rewrite (first_found _ _ _ F'), setattr_loop, patched_twice.
  rewrite commit_dirty_succeeds.
  - apply consistent_parts in C'. destruct C' as [_ [Di _]].
    rewrite (replaced_same _ _ Di) by apply (first_by_id_Some _ _ _ F').
    reflexivity.
  - exact B.
  - exact N.
  - intros r Hr S. unfold replaced in Hr. apply in_map_iff in Hr.
    destruct Hr as [q [<- Hq]].
    destruct (Session.same_id (patched product p) q) eqn:Sq;
      [|apply U; assumption].
    rewrite (has_id_same_id product_id (patched product p)
               (patched product p) I) in S.
    change (Session.has_id product_id (patched product p))
      with (Session.has_id product_id p) in S.
    congruence.
Qed.

End Again.

(** * Integers that the database cannot hold *)

Section Overflow.
Context `{LaxConversion}.

(** X18. A key outside 64 bits. The driver cannot bind it in the lookup
    and no handler catches the error: a [GET], a [DELETE] and a [PUT]
    whose body passes validation are each answered 500, whatever the table
    holds, and the table is the one before the request. A [PUT] whose body
    fails validation still gets the validation error. *)
Theorem X18_key_out_of_range (db : Table) (product_id : Z) :
  Session.in_int64 product_id = false ->
  app (GET_product product_id) db = (InternalServerError, db)
  /\ app (DELETE_product product_id) db = (InternalServerError, db)
  /\ (forall body,
        app (PUT_product product_id body) db
        = match ProductUpdate.validate body with
          | Some _ => (InternalServerError, db)
          | None => (RequestValidationError, db)
          end).
Proof.
  intros R. pose proof (first_overflow product_id db R) as F.
  unfold app, get_product, delete_product, update_product. rewrite F.
  split; [reflexivity|]. split; [reflexivity|].
  intros body. destruct (ProductUpdate.validate body); reflexivity.
Qed.

(** X19. A quantity outside 64 bits on an update. The body passes
    validation, the row is found, the driver cannot bind the quantity at
    the commit and the handler catches [IntegrityError] only: the answer
    is 500, also when the body gives a name that another row has, and the
    table is the one before the request. *)
Theorem X19_update_unstorable_quantity (db : Table) (product_id : Z)
    (p : Product.t) (body : Body) (product : ProductUpdate.t) :
  Session.first_by_id product_id db = Some p ->
  ProductUpdate.validate body = Some product ->
  overflows product = true ->
  app (PUT_product product_id body) db = (InternalServerError, db)
  /\ Session.first_by_id product_id
       (snd (app (PUT_product product_id body) db)) = Some p.
Proof.
  intros F V O. unfold app. rewrite V.
  rewrite (update_product_overflow product_id product p db F O).
  split; [reflexivity | exact F].
Qed.

End Overflow.

(** * The further properties on the shop of the examples *)

Lemma X1_witness :
  snd (Demo.serve (DELETE_product 1) Demo.shop) <> Demo.shop
  /\ ((exists body p,
         DELETE_product 1 = POST_products body
         /\ fst (Demo.serve (DELETE_product 1) Demo.shop) = Ok_product p)
      \/ (exists i body p,
            DELETE_product 1 = PUT_product i body
            /\ fst (Demo.serve (DELETE_product 1) Demo.shop) = Ok_product p)
      \/ (exists i,
            DELETE_product 1 = DELETE_product i
            /\ fst (Demo.serve (DELETE_product 1) Demo.shop)
               = Ok_message "Product deleted successfully")).
Proof.
  assert (snd (Demo.serve (DELETE_product 1) Demo.shop) <> Demo.shop) as N
    by (vm_compute; discriminate).
  split; [exact N|].
  exact (@X1_table_changes_only_on_success Demo.json_numbers
           (DELETE_product 1) Demo.shop N).
Defined.

Lemma X2_witness :
  Session.first_by_id 1 Demo.shop = Some Demo.widget_row
  /\ Demo.serve (DELETE_product 1) Demo.shop
     = (Ok_message "Product deleted successfully", [Demo.gadget_row])
  /\ Demo.serve (DELETE_product 1) [Demo.gadget_row]
     = (HTTPException 404 "Product not found", [Demo.gadget_row]).
Proof.
  split; [reflexivity|]. split; [reflexivity|].
  exact (proj1 (proj2 (proj2 (proj2
           (@X2_delete_then_not_found Demo.json_numbers Demo.shop 1
              Demo.widget_row eq_refl))))).
Defined.




Lemma X7_witness :
  @ProductCreate.validate Demo.json_numbers Demo.gadget
  = Some (ProductCreate.mk "Gadget" 20%float 2%Z (Some "A gadget") None)
  /\ dict_get "name" Demo.gadget = Some (JStr "Gadget")
  /\ blank "Gadget" = false.
Proof.
  split; [reflexivity|].
  destruct (proj1 (@X7_create_accepts Demo.json_numbers Demo.gadget
                     (ProductCreate.mk "Gadget" 20%float 2%Z
                        (Some "A gadget") None)) eq_refl)
    as [G [B _]].
  split; [exact G | exact B].
Defined.

Lemma X8_witness :
  let body := [("name", JNull); ("price", JInt 7)] in
  let product :=
    ProductUpdate.mk (Some None) (Some (Some 7%float)) None None None in
  tracked_text (dict_get "name" body) (ProductUpdate.name product)
  /\ tracked_number (@lax_float Demo.json_numbers) (PrimFloat.ltb 0)
       (dict_get "price" body) (ProductUpdate.price product)
  /\ @ProductUpdate.validate Demo.json_numbers body = Some product.
Proof.
  intros body product.
  assert (tracked_number (@lax_float Demo.json_numbers) (PrimFloat.ltb 0)
            (dict_get "price" body) (ProductUpdate.price product)) as P
    by (exists 7%float; repeat split).
  split; [reflexivity|]. split; [exact P|].
  apply (proj2 (@X8_update_accepts Demo.json_numbers body product)).
  split; [reflexivity|]. split; [exact P|].
  repeat split.
Defined.

Lemma X9_witness :
  let body := [("price", JInt 100); ("quantity", JInt 10)] in
  dict_get "name" body = None
  /\ Demo.serve (POST_products body) Demo.shop
     = (RequestValidationError, Demo.shop).
Proof.
  intros body. split; [reflexivity|].
  exact (@X9_create_missing_field Demo.json_numbers Demo.shop body
           (or_introl eq_refl)).
Defined.

Lemma X10_witness :
  In Demo.gadget_row Demo.shop
  /\ exists i, Product.id Demo.gadget_row = Some i.
Proof.
  assert (In Demo.gadget_row Demo.shop) as I by (right; left; reflexivity).
  split; [exact I|].
  exact (proj1 (proj2
           (@X10_keys_stay_unique Demo.json_numbers
              [POST_products Demo.widget; POST_products Demo.gadget]))
           Demo.gadget_row I).
Defined.

Lemma X11_witness :
  In Demo.gadget_row Demo.shop
  /\ (exists n, Product.name Demo.gadget_row = Some n /\ strip n <> "")
  /\ (forall d, Product.description Demo.gadget_row = Some d -> strip d <> "")
  /\ (forall c, Product.category Demo.gadget_row = Some c -> strip c <> "").
Proof.
  assert (In Demo.gadget_row Demo.shop) as I by (right; left; reflexivity).
  split; [exact I|].
  exact (@X11_stored_texts_not_blank Demo.json_numbers
           [POST_products Demo.widget; POST_products Demo.gadget]
           Demo.gadget_row I).
Defined.

Lemma X12_witness :
  (forall x, @lax_float Demo.json_numbers (JFloat x) = Some x)
  /\ (forall n, @lax_int Demo.json_numbers (JInt n) = Some n)
  /\ exists resp,
       @ProductResponse.validate Demo.json_numbers Demo.gadget_row
       = Some resp
       /\ carries Demo.gadget_row resp.
Proof.
  split; [reflexivity|]. split; [reflexivity|].
  exact (@X12_responses_pass_schema Demo.json_numbers
           [POST_products Demo.widget; POST_products Demo.gadget]
           (GET_product 2) (fun _ => eq_refl) (fun _ => eq_refl)).
Defined.

Lemma X13_witness :
  (forall r, In r Demo.shop -> keyed r = true)
  /\ @cleanup_products Demo.json_numbers Demo.shop = [].
Proof.
  assert (forall r, In r Demo.shop -> keyed r = true) as K
    by (intros r [<-|[<-|[]]]; reflexivity).
  split; [exact K|].
  exact (proj1 (proj2
           (@X13_cleanup_products_empties Demo.json_numbers Demo.shop)) K).
Defined.



Lemma X17_witness :
  let body := [("price", JFloat 12)] in
  consistent Demo.shop = true
  /\ Demo.serve (PUT_product 1 body)
       (snd (Demo.serve (PUT_product 1 body) Demo.shop))
     = (fst (Demo.serve (PUT_product 1 body) Demo.shop),
        snd (Demo.serve (PUT_product 1 body) Demo.shop)).
Proof.
  intros body. split; [reflexivity|].
  exact (@X17_update_twice Demo.json_numbers Demo.shop 1 body eq_refl).
Defined.

Lemma X18_witness :
  Session.in_int64 Demo.too_big = false
  /\ Demo.serve (GET_product Demo.too_big) Demo.shop
     = (InternalServerError, Demo.shop)
  /\ Demo.serve (DELETE_product Demo.too_big) Demo.shop
     = (InternalServerError, Demo.shop).
Proof.
  split; [reflexivity|].
  destruct (@X18_key_out_of_range Demo.json_numbers Demo.shop Demo.too_big
              eq_refl) as [G [D _]].
  split; [exact G | exact D].
Defined.

Lemma X19_witness :
  let body := [("name", JStr "Gadget"); ("quantity", JInt Demo.too_big)] in
  let product :=
    ProductUpdate.mk (Some (Some "Gadget")) None (Some (Some Demo.too_big))
      None None in
  Session.first_by_id 1 Demo.shop = Some Demo.widget_row
  /\ @ProductUpdate.validate Demo.json_numbers body = Some product
  /\ overflows product = true
  /\ Demo.serve (PUT_product 1 body) Demo.shop
     = (InternalServerError, Demo.shop).
Proof.
  intros body product. repeat (split; [reflexivity|]).
  exact (proj1 (@X19_update_unstorable_quantity Demo.json_numbers Demo.shop
                  1 Demo.widget_row body product eq_refl eq_refl eq_refl)).
Defined.

(** ** Examples: the handlers on concrete requests *)

Example shop_rows : Demo.shop = [Demo.widget_row; Demo.gadget_row].
Proof. vm_compute. reflexivity. Qed.

Example strip_spaces : strip "  a b  " = "a b" /\ strip "   " = "".
Proof. split; reflexivity. Qed.

Example scenario_duplicate_widget :
  Demo.serve (POST_products Demo.widget) Demo.shop
  = (HTTPException 400 "Product creation failed due to duplicate name.",
     Demo.shop).
Proof. vm_compute. reflexivity. Qed.

Example scenario_negative_price :
  Demo.serve
    (POST_products
       [("name", JStr "Gizmo"); ("price", JInt (-1)); ("quantity", JInt 5)])
    Demo.shop
  = (RequestValidationError, Demo.shop).
Proof. vm_compute. reflexivity. Qed.

Example scenario_update_price :
  fst (Demo.serve (PUT_product 1 [("price", JFloat 19.5)]) Demo.shop)
  = Ok_product (Product.set_price (Some 19.5%float) Demo.widget_row).
Proof. vm_compute. reflexivity. Qed.

Example scenario_filter :
  fst (Demo.serve (GET_products (Some 15%float)) Demo.shop)
  = Ok_products [Demo.gadget_row].
Proof. vm_compute. reflexivity. Qed.

Example scenario_delete_then_get :
  let db := snd (Demo.serve (DELETE_product 1) Demo.shop) in
  fst (Demo.serve (GET_product 1) db)
  = HTTPException 404 "Product not found".
Proof. vm_compute. reflexivity. Qed.
